(** * useTable: the list-state controller of packages/core/src/hooks/useTable

    A shallow embedding of the [useTable] hook (pagination by page number or
    by cursor, sorters, filters, and the synchronisation with the location)
    together with the properties of its specification.

    Conventions of the embedding:
    - React state is a record [TableState]; every setter call and every
      effect is a function from the state before to the state after.
    - A callback reads the state of the render that created it, a
      functional update the latest state; a callback is applied here to the
      state of its own render, where the two agree.
    - JavaScript values whose type the hook leaves open ([unknown]) are
      values of [Js.JsValue], with the truthiness rule of the language.
    - Page numbers, page sizes and totals are integers ([Z]).
    - JavaScript objects used as query-parameter bags are finite maps from
      strings; a key bound to [undefined] is a binding to [JUndefined],
      which differs from the key being absent. *)

From stdpp Require Import base numbers option list strings gmap.

Local Open Scope string_scope.
Local Open Scope list_scope.
Local Open Scope Z_scope.

(** ** JavaScript values *)

Module Js.

#[warning="-register-all"] Inductive JsValue : Type :=
| JUndefined
| JNull
| JBool (b : bool)
| JNum (n : Z)
| JStr (s : string)
| JArr (items : list JsValue).

(** [Boolean(v)], [!!v] and the test of [if (v)]. *)
Definition truthy (v : JsValue) : bool :=
  match v with
  | JUndefined | JNull => false
  | JBool b => b
  | JNum n => negb (n =? 0)
  | JStr s => match s with EmptyString => false | String _ _ => true end
  | JArr _ => true
  end.

(** Decidable equality, used for lodash's deep [isEqual]. *)
Fixpoint JsValue_eq_dec (a b : JsValue) {struct a} : {a = b} + {a <> b}.
Proof.
  refine (
    match a, b with
    | JUndefined, JUndefined => left eq_refl
    | JNull, JNull => left eq_refl
    | JBool x, JBool y => cast_if (decide (x = y))
    | JNum x, JNum y => cast_if (decide (x = y))
    | JStr x, JStr y => cast_if (decide (x = y))
    | JArr xs, JArr ys =>
        cast_if
          ((fix items_eq_dec (l1 l2 : list JsValue) {struct l1}
              : {l1 = l2} + {l1 <> l2} :=
              match l1, l2 with
              | [], [] => left eq_refl
              | x :: l1', y :: l2' =>
                  cast_if_and (JsValue_eq_dec x y) (items_eq_dec l1' l2')
              | _, _ => right _
              end) xs ys)
    | _, _ => right _
    end); try congruence.
Defined.

#[global] Instance JsValue_EqDecision : EqDecision JsValue := JsValue_eq_dec.

End Js.
Import Js.

(** lodash [isEqual]: deep comparison by value. *)
Definition isEqual {A : Type} `{EqDecision A} (x y : A) : bool :=
  bool_decide (x = y).

(** lodash [differenceWith(array, values, comparator)]: the entries of
    [array], in order, for which the comparator finds no partner in
    [values]. *)
Definition differenceWith {A : Type} (array values : list A)
    (comparator : A -> A -> bool) : list A :=
  filter (fun x => forallb (fun y => negb (comparator x y)) values = true) array.

(** [Array.prototype.pop]: the removed last element ([undefined] on an empty
    array) and the array that is left. *)
Fixpoint pop (l : list JsValue) : JsValue * list JsValue :=
  match l with
  | [] => (JUndefined, [])
  | x :: t =>
      match t with
      | [] => (x, [])
      | _ :: _ => let '(r, t') := pop t in (r, x :: t')
      end
  end.

(** ** Sort and filter entries

    The types [CrudSort], [CrudFilter] and [Pagination] are declared in
    contexts/data/types, which is outside the sources at hand; the records
    below follow the data model of the specification. *)

Inductive SortOrder : Type := Asc | Desc.

(** Modelled from the spec: the type [CrudSort] (a field and an order). *)
Record CrudSort : Type := mkSort {
  sort_field : string;
  sort_order : SortOrder
}.

(** Modelled from the spec: the type [CrudFilter] (field, operator, value
    and an optional custom key). *)
Record CrudFilter : Type := mkFilter {
  filter_field : string;
  filter_operator : string;
  filter_value : JsValue;
  filter_key : option string
}.

#[global] Instance SortOrder_EqDecision : EqDecision SortOrder.
Proof. solve_decision. Defined.

#[global] Instance CrudSort_EqDecision : EqDecision CrudSort.
Proof. solve_decision. Defined.

#[global] Instance CrudFilter_EqDecision : EqDecision CrudFilter.
Proof. solve_decision. Defined.

(** Modelled from the spec: the pagination mode of the type [Pagination],
    the enumeration offset / cursor / off. *)
Inductive PaginationMode : Type := OffsetMode | CursorMode | OffMode.

#[global] Instance PaginationMode_EqDecision : EqDecision PaginationMode.
Proof. solve_decision. Defined.

Record Pagination : Type := mkPagination {
  mode : option PaginationMode;
  pagination_currentPage : option Z;
  pagination_pageSize : option Z
}.

Inductive SetFilterBehavior : Type := Merge | Replace.

Inductive CursorDirection : Type := After | Before.

#[global] Instance CursorDirection_EqDecision : EqDecision CursorDirection.
Proof. solve_decision. Defined.

(** The key of the location a direction is written under. *)
Definition directionKey (d : CursorDirection) : string :=
  match d with After => "after" | Before => "before" end.

(** ** Properties of the hook *)

Record SortersProp : Type := mkSortersProp {
  sorters_initial : option (list CrudSort);
  sorters_permanent : option (list CrudSort)
}.

Record FiltersProp : Type := mkFiltersProp {
  filters_initial : option (list CrudFilter);
  filters_permanent : option (list CrudFilter);
  filters_defaultBehavior : option SetFilterBehavior
}.

Record useTableProps : Type := mkProps {
  pagination : option Pagination;
  filtersFromProp : option FiltersProp;
  sortersFromProp : option SortersProp;
  syncWithLocationProp : option bool
}.

(** ** Query-parameter objects

    The values found in the parsed location and written to it: plain
    JavaScript values, or the arrays of sorters and of filters. *)

Inductive QValue : Type :=
| QJs (v : JsValue)
| QSorters (l : list CrudSort)
| QFilters (l : list CrudFilter).

#[global] Instance QValue_EqDecision : EqDecision QValue.
Proof. solve_decision. Defined.

Abbreviation Query := (gmap string QValue).

(** [{...a, ...b}]: the bindings of [b] win. *)
Definition spread (a b : Query) : Query := b ∪ a.

(** Typed reads of the parsed params, as the router's [ParseResponse]
    types them: [currentPage] and [pageSize] are numbers, [sorters] and
    [filters] arrays, every other key is open. *)
Definition readNum (params : option Query) (k : string) : option Z :=
  match params ≫= (fun m => m !! k) with
  | Some (QJs (JNum n)) => Some n
  | _ => None
  end.

Definition readJs (params : option Query) (k : string) : JsValue :=
  match params ≫= (fun m => m !! k) with
  | Some (QJs v) => v
  | Some (QSorters _) | Some (QFilters _) => JArr []
  | None => JUndefined
  end.

Definition readSorters (params : option Query) : option (list CrudSort) :=
  match params ≫= (fun m => m !! "sorters") with
  | Some (QSorters l) => Some l
  | _ => None
  end.

Definition readFilters (params : option Query) : option (list CrudFilter) :=
  match params ≫= (fun m => m !! "filters") with
  | Some (QFilters l) => Some l
  | _ => None
  end.

(** [a || b] on optional numbers: [undefined] and [0] are falsy. *)
Definition orNum (a b : option Z) : option Z :=
  match a with
  | Some n => if n =? 0 then b else Some n
  | None => b
  end.

(** [a || d] with a number [d] on the right. *)
Definition orNumDefault (a : option Z) (d : Z) : Z :=
  match a with
  | Some n => if n =? 0 then d else n
  | None => d
  end.

(** [a ?? d]. *)
Definition nullish {A : Type} (a : option A) (d : A) : A := default d a.

Definition readStr (params : option Query) (k : string) : option string :=
  match params ≫= (fun m => m !! k) with
  | Some (QJs (JStr s)) => Some s
  | _ => None
  end.

(** ** State of the hook *)

Record CursorState : Type := mkCursorState {
  current : JsValue;
  direction : CursorDirection;
  next : JsValue;
  prev : JsValue;
  history : list JsValue
}.

Record TableState : Type := mkTableState {
  sorters : list CrudSort;
  filters : list CrudFilter;
  currentPage : Z;
  pageSize : Z;
  cursorState : CursorState
}.

(** What a render of the hook reads from its caller and from the other
    hooks: the props, the [syncWithLocation] of the context and
    [parsedParams.params]. *)
Record RenderInput : Type := mkRenderInput {
  props : useTableProps;
  syncWithLocationContext : bool;
  params : option Query
}.

(** The result of [parseTableParams]; the hook reads these four fields. *)
Record ParsedTableParams : Type := mkParsedTableParams {
  parsedCurrentPage : option Z;
  parsedPageSize : option Z;
  parsedSorter : list CrudSort;
  parsedFilters : list CrudFilter
}.

(** The part of a [getList] response the hook reads. *)
Record CursorPagination : Type := mkCursorPagination {
  cursor_next : JsValue;
  cursor_prev : JsValue
}.

Record GetListResponse : Type := mkResponse {
  total : option Z;
  cursor : option CursorPagination
}.

(** The argument of [go]. *)
Inductive GoType : Type := GoPath | GoReplace | GoPush.

Record GoConfig : Type := mkGoConfig {
  go_type : GoType;
  keepHash : bool;
  keepQuery : bool;
  query : Query
}.

Record SyncWithLocationParams : Type := mkLinkParams {
  link_currentPage : option Z;
  link_pageSize : option Z;
  link_sorters : list CrudSort;
  link_filters : list CrudFilter
}.

(** The first argument of [setFilters]: an array or an updater. *)
Inductive SetterOrFilters : Type :=
| FiltersArray (newFilters : list CrudFilter)
| FiltersSetter (setter : list CrudFilter -> list CrudFilter).

Definition numOrUndefined (n : option Z) : QValue :=
  match n with Some k => QJs (JNum k) | None => QJs JUndefined end.

(** [Math.ceil(a / b)] on integers, [b] not zero. *)
Definition ceilDiv (a b : Z) : Z := - ((- a) `div` b).

(** ** The unions of definitions/table

    [unionFilters], [unionSorters], [setInitialFilters] and
    [setInitialSorters] are imported by the hook from definitions/table,
    whose source is not at hand. The hook is embedded over arbitrary such
    functions (section [UseTable]); this module gives the unions the
    specification describes, for the properties that rest on them. *)

Module Table.

Section Union.

Context {A K : Type} `{EqDecision K} (key : A -> K).

(** An entry with the key of [x] occurs in [l]. *)
Definition represented (l : list A) (x : A) : bool :=
  existsb (fun y => bool_decide (key y = key x)) l.

(** Duplicates by key resolved to the last occurrence. *)
Fixpoint keepLast (l : list A) : list A :=
  match l with
  | [] => []
  | x :: t => if represented t x then keepLast t else x :: keepLast t
  end.

(** Modelled from the spec: the merge of definitions/table, section 4.2:
    permanent entries first, in their given order; then the incoming
    entries whose key no permanent entry has; then the previous entries
    whose key neither a permanent nor an incoming entry has (incoming
    overrides previous); duplicates by key resolved to the last
    occurrence. *)
Definition union (permanent incoming previous : list A) : list A :=
  permanent
  ++ keepLast (filter (fun x => represented permanent x = false) incoming)
  ++ keepLast
       (filter
          (fun x => represented permanent x = false /\ represented incoming x = false)
          previous).

End Union.

(** Modelled from the spec: the uniqueness key of a filter entry, the pair
    of field and operator unless a custom key is present. *)
Inductive FilterKey : Type :=
| CustomKey (k : string)
| FieldOperator (field operator : string).

#[global] Instance FilterKey_EqDecision : EqDecision FilterKey.
Proof. solve_decision. Defined.

Definition filterKey (f : CrudFilter) : FilterKey :=
  match filter_key f with
  | Some k => CustomKey k
  | None => FieldOperator (filter_field f) (filter_operator f)
  end.

(** Modelled from the spec: [unionFilters] of definitions/table; the third
    argument is optional and empty when not given. *)
Definition unionFilters (permanentFilter newFilters prevFilters : list CrudFilter)
    : list CrudFilter :=
  union filterKey permanentFilter newFilters prevFilters.

(** Modelled from the spec: [unionSorters] of definitions/table; the
    uniqueness key of a sort entry is its field. *)
Definition unionSorters (permanentSorter newSorters : list CrudSort)
    : list CrudSort :=
  union sort_field permanentSorter newSorters [].

(** A [parseTableParams] that finds no table parameter in its argument. *)
Definition noTableParams (search : string) : ParsedTableParams :=
  {| parsedCurrentPage := None; parsedPageSize := None;
     parsedSorter := []; parsedFilters := [] |}.

(** Instances of [setInitialFilters] and [setInitialSorters] for the
    examples: the permanent set united with the defaults. *)
Definition exampleInitialFilters (permanent defaults : list CrudFilter)
    : list CrudFilter :=
  unionFilters permanent defaults [].

Definition exampleInitialSorters (permanent defaults : list CrudSort)
    : list CrudSort :=
  unionSorters permanent defaults.

End Table.

Section UseTable.

(** The imports from definitions/table and the hooks [useGo]: their
    sources are not at hand, the hook is embedded over any of them. *)
Variable unionFilters :
  list CrudFilter -> list CrudFilter -> list CrudFilter -> list CrudFilter.
Variable unionSorters : list CrudSort -> list CrudSort -> list CrudSort.
Variable setInitialFilters : list CrudFilter -> list CrudFilter -> list CrudFilter.
Variable setInitialSorters : list CrudSort -> list CrudSort -> list CrudSort.
Variable parseTableParams : string -> ParsedTableParams.
Variable go : GoConfig -> option string.

Section Render.

Variable input : RenderInput.

Definition syncWithLocation : bool :=
  nullish (syncWithLocationProp (props input)) (syncWithLocationContext input).

Definition paginationMode : option PaginationMode :=
  pagination (props input) ≫= mode.

Definition isPaginationEnabled : bool :=
  match paginationMode with Some OffMode => false | _ => true end.

Definition isCursorPaginationEnabled : bool :=
  match paginationMode with Some CursorMode => true | _ => false end.

Definition prefferedCurrentPage : option Z :=
  pagination (props input) ≫= pagination_currentPage.

Definition prefferedPageSize : option Z :=
  pagination (props input) ≫= pagination_pageSize.

Definition parsedTable : ParsedTableParams :=
  parseTableParams (nullish (readStr (params input) "search") "?").

Definition preferredInitialFilters : option (list CrudFilter) :=
  filtersFromProp (props input) ≫= filters_initial.

Definition preferredPermanentFilters : list CrudFilter :=
  nullish (filtersFromProp (props input) ≫= filters_permanent) [].

Definition preferredInitialSorters : option (list CrudSort) :=
  sortersFromProp (props input) ≫= sorters_initial.

Definition preferredPermanentSorters : list CrudSort :=
  nullish (sortersFromProp (props input) ≫= sorters_permanent) [].

Definition prefferedFilterBehavior : SetFilterBehavior :=
  nullish (filtersFromProp (props input) ≫= filters_defaultBehavior) Merge.

Definition defaultCursorAndDirection : JsValue * CursorDirection :=
  if syncWithLocation && isCursorPaginationEnabled then
    if truthy (readJs (params input) "after") then
      (readJs (params input) "after", After)
    else if truthy (readJs (params input) "before") then
      (readJs (params input) "before", Before)
    else (JUndefined, After)
  else (JUndefined, After).

Definition defaultCursor : JsValue := fst defaultCursorAndDirection.
Definition defaultCursorDirection : CursorDirection :=
  snd defaultCursorAndDirection.

Definition defaultCurrentPage : Z :=
  if syncWithLocation then
    orNumDefault
      (orNum (orNum (readNum (params input) "currentPage")
                    (parsedCurrentPage parsedTable))
             prefferedCurrentPage) 1
  else orNumDefault prefferedCurrentPage 1.

Definition defaultPageSize : Z :=
  if syncWithLocation then
    orNumDefault
      (orNum (orNum (readNum (params input) "pageSize")
                    (parsedPageSize parsedTable))
             prefferedPageSize) 10
  else orNumDefault prefferedPageSize 10.

Definition defaultSorter : option (list CrudSort) :=
  if syncWithLocation then
    match readSorters (params input) with
    | Some l => Some l
    | None =>
        match parsedSorter parsedTable with
        | [] => preferredInitialSorters
        | _ :: _ => Some (parsedSorter parsedTable)
        end
    end
  else preferredInitialSorters.

Definition defaultFilter : option (list CrudFilter) :=
  if syncWithLocation then
    match readFilters (params input) with
    | Some l => Some l
    | None =>
        match parsedFilters parsedTable with
        | [] => preferredInitialFilters
        | _ :: _ => Some (parsedFilters parsedTable)
        end
    end
  else preferredInitialFilters.

(** The state after the first render: the initial values of the five
    [useState] calls. *)
Definition mount : TableState :=
  {| sorters := setInitialSorters preferredPermanentSorters (nullish defaultSorter []);
     filters := setInitialFilters preferredPermanentFilters (nullish defaultFilter []);
     currentPage := defaultCurrentPage;
     pageSize := defaultPageSize;
     cursorState :=
       {| current := defaultCursor;
          direction := defaultCursorDirection;
          next := JUndefined;
          prev := JUndefined;
          history := [] |} |}.

(** [getCurrentQueryParams]: the parsed params without the four keys the
    destructuring names. *)
Definition getCurrentQueryParams : Query :=
  delete "current"
    (delete "pageSize"
       (delete "filters" (delete "sorters" (nullish (params input) ∅)))).

(** The [query] handed to [go] by [createLinkForSyncWithLocation]. *)
Definition linkQuery (p : SyncWithLocationParams) : Query :=
  spread
    (<["filters" := QFilters (link_filters p)]>
       (<["sorters" := QSorters (link_sorters p)]>
          (if isPaginationEnabled then
             <["pageSize" := numOrUndefined (link_pageSize p)]>
               (<["currentPage" := numOrUndefined (link_currentPage p)]> ∅)
           else ∅)))
    getCurrentQueryParams.

Definition createLinkForSyncWithLocation (p : SyncWithLocationParams) : string :=
  nullish
    (go {| go_type := GoPath; keepHash := true; keepQuery := true;
           query := linkQuery p |})
    "".

(** The effect on [parsedParams.params.search]. *)
Definition resetEffect (st : TableState) : TableState :=
  if bool_decide (params input ≫= (fun m => m !! "search") = Some (QJs (JStr ""))) then
    {| sorters := setInitialSorters preferredPermanentSorters (nullish defaultSorter []);
       filters := setInitialFilters preferredPermanentFilters (nullish defaultFilter []);
       currentPage := defaultCurrentPage;
       pageSize := defaultPageSize;
       cursorState := cursorState st |}
  else st.

(** The cursor parameters of the write to the location. *)
Definition cursorParams (st : TableState) : Query :=
  if isPaginationEnabled && isCursorPaginationEnabled then
    if bool_decide (current (cursorState st) <> JUndefined) then
      <[directionKey (direction (cursorState st)) := QJs (current (cursorState st))]>
        (<["before" := QJs JUndefined]> (<["after" := QJs JUndefined]> ∅))
    else <["before" := QJs JUndefined]> (<["after" := QJs JUndefined]> ∅)
  else ∅.

(** The effect that writes the state to the location: the argument of
    [go], or nothing when the synchronisation is off. *)
Definition syncOut (st : TableState) : option GoConfig :=
  if syncWithLocation then
    Some
      {| go_type := GoReplace; keepHash := false; keepQuery := true;
         query :=
           <["filters" :=
               QFilters (differenceWith (filters st) preferredPermanentFilters isEqual)]>
             (<["sorters" :=
                  QSorters (differenceWith (sorters st) preferredPermanentSorters isEqual)]>
                (spread
                   (if isPaginationEnabled && negb isCursorPaginationEnabled then
                      <["currentPage" := QJs (JNum (currentPage st))]>
                        (<["pageSize" := QJs (JNum (pageSize st))]> ∅)
                    else ∅)
                   (cursorParams st))) |}
  else None.

Definition withFilters (f : list CrudFilter) (st : TableState) : TableState :=
  {| sorters := sorters st; filters := f; currentPage := currentPage st;
     pageSize := pageSize st; cursorState := cursorState st |}.

Definition withSorters (s : list CrudSort) (st : TableState) : TableState :=
  {| sorters := s; filters := filters st; currentPage := currentPage st;
     pageSize := pageSize st; cursorState := cursorState st |}.

Definition withCurrentPage (n : Z) (st : TableState) : TableState :=
  {| sorters := sorters st; filters := filters st; currentPage := n;
     pageSize := pageSize st; cursorState := cursorState st |}.

Definition withCursorState (c : CursorState) (st : TableState) : TableState :=
  {| sorters := sorters st; filters := filters st; currentPage := currentPage st;
     pageSize := pageSize st; cursorState := c |}.

Definition setFiltersAsMerge (newFilters : list CrudFilter) (st : TableState)
    : TableState :=
  withFilters (unionFilters preferredPermanentFilters newFilters (filters st)) st.

Definition setFiltersAsReplace (newFilters : list CrudFilter) (st : TableState)
    : TableState :=
  withFilters (unionFilters preferredPermanentFilters newFilters []) st.

Definition setFiltersWithSetter (setter : list CrudFilter -> list CrudFilter)
    (st : TableState) : TableState :=
  withFilters (unionFilters preferredPermanentFilters (setter (filters st)) []) st.

(** [setFilters]; an absent [behavior] is the configured default. *)
Definition setFiltersFn (setterOrFilters : SetterOrFilters)
    (behavior : option SetFilterBehavior) (st : TableState) : TableState :=
  match setterOrFilters with
  | FiltersSetter setter => setFiltersWithSetter setter st
  | FiltersArray newFilters =>
      match nullish behavior prefferedFilterBehavior with
      | Replace => setFiltersAsReplace newFilters st
      | Merge => setFiltersAsMerge newFilters st
      end
  end.

(** [setSorters]. *)
Definition setSortWithUnion (newSorter : list CrudSort) (st : TableState)
    : TableState :=
  withSorters (unionSorters preferredPermanentSorters newSorter) st.

(** The effect on the data of the query: [next] and [prev] are taken from
    the response. *)
Definition responseEffect (data : option GetListResponse) (st : TableState)
    : TableState :=
  match data with
  | Some response =>
      if isCursorPaginationEnabled then
        withCursorState
          {| current := current (cursorState st);
             direction := direction (cursorState st);
             next := from_option cursor_next JUndefined (cursor response);
             prev := from_option cursor_prev JUndefined (cursor response);
             history := history (cursorState st) |} st
      else st
  | None => st
  end.

Definition goToNextPage (st : TableState) : TableState :=
  if negb isCursorPaginationEnabled then withCurrentPage (currentPage st + 1) st
  else if truthy (next (cursorState st)) then
    withCursorState
      {| current := next (cursorState st);
         direction := After;
         history := history (cursorState st) ++ [current (cursorState st)];
         next := JUndefined;
         prev := JUndefined |} st
  else st.

Definition goToPreviousPage (st : TableState) : TableState :=
  if negb isCursorPaginationEnabled then
    withCurrentPage (Z.max 1 (currentPage st - 1)) st
  else if truthy (prev (cursorState st)) then
    withCursorState
      {| current := prev (cursorState st);
         direction := Before;
         next := JUndefined;
         prev := JUndefined;
         history := history (cursorState st) |} st
  else if 0 <? Z.of_nat (length (history (cursorState st))) then
    let '(prevCursor, newHistory) := pop (history (cursorState st)) in
    withCursorState
      {| current := prevCursor;
         direction := After;
         next := JUndefined;
         prev := JUndefined;
         history := newHistory |} st
  else if truthy (current (cursorState st)) then
    withCursorState
      {| current := JUndefined;
         direction := After;
         next := JUndefined;
         prev := JUndefined;
         history := [] |} st
  else st.

(** [pageCount]; [resultTotal] is [queryResult.result?.total]. *)
Definition pageCount (resultTotal : option Z) (st : TableState) : Z :=
  if negb (pageSize st =? 0) then ceilDiv (nullish resultTotal 0) (pageSize st)
  else 1.

Definition hasNextPage (resultTotal : option Z) (st : TableState) : bool :=
  if isCursorPaginationEnabled then truthy (next (cursorState st))
  else currentPage st <? pageCount resultTotal st.

Definition hasPreviousPage (st : TableState) : bool :=
  if isCursorPaginationEnabled then
    truthy (prev (cursorState st))
    || (0 <? Z.of_nat (length (history (cursorState st))))
    || truthy (current (cursorState st))
  else 1 <? currentPage st.

End Render.

(** A call of the user on the filters or on the sorters. *)
Inductive UserCall : Type :=
| CallSetFilters (setterOrFilters : SetterOrFilters) (behavior : option SetFilterBehavior)
| CallSetSorters (newSorter : list CrudSort).

Definition isFiltersCall (c : UserCall) : bool :=
  match c with CallSetFilters _ _ => true | CallSetSorters _ => false end.

Definition isSortersCall (c : UserCall) : bool :=
  match c with CallSetFilters _ _ => false | CallSetSorters _ => true end.

Definition applyCall (input : RenderInput) (c : UserCall) (st : TableState)
    : TableState :=
  match c with
  | CallSetFilters setterOrFilters behavior =>
      setFiltersFn input setterOrFilters behavior st
  | CallSetSorters newSorter => setSortWithUnion input newSorter st
  end.

(** The calls of a list one after the other, the head first. *)
Fixpoint runCalls (input : RenderInput) (calls : list UserCall) (st : TableState)
    : TableState :=
  match calls with
  | [] => st
  | c :: rest => runCalls input rest (applyCall input c st)
  end.

(** The search string of the location is exactly empty. *)
Definition searchIsEmpty (input : RenderInput) : Prop :=
  params input ≫= (fun m => m !! "search") = Some (QJs (JStr "")).

(** A token is present when it is not [undefined]. *)
Definition present (v : JsValue) : Prop := v <> JUndefined.

(** [q] is the least integer with [a <= q * b]: the ceiling of [a / b]. *)
Definition isCeiling (q a b : Z) : Prop := (q - 1) * b < a /\ a <= q * b.

Definition oppositeDirection (d : CursorDirection) : CursorDirection :=
  match d with After => Before | Before => After end.

(** A hook in cursor mode, without props besides, on a location without
    parameters; and states used as examples. *)
Definition cursorProps : useTableProps :=
  {| pagination :=
       Some {| mode := Some CursorMode; pagination_currentPage := None;
               pagination_pageSize := Some 5 |};
     filtersFromProp := None; sortersFromProp := None;
     syncWithLocationProp := Some true |}.

Definition cursorInput : RenderInput :=
  {| props := cursorProps; syncWithLocationContext := false; params := None |}.

Definition offsetProps : useTableProps :=
  {| pagination :=
       Some {| mode := Some OffsetMode; pagination_currentPage := None;
               pagination_pageSize := Some 10 |};
     filtersFromProp := None; sortersFromProp := None;
     syncWithLocationProp := Some true |}.

Definition offsetInput : RenderInput :=
  {| props := offsetProps; syncWithLocationContext := false; params := None |}.

(** A location that carries [currentPage = 3], and the bare location. *)
Definition pageThreeInput : RenderInput :=
  {| props := offsetProps; syncWithLocationContext := false;
     params := Some {[ "currentPage" := QJs (JNum 3) ]} |}.

Definition clearedInput : RenderInput :=
  {| props := offsetProps; syncWithLocationContext := false;
     params := Some {[ "search" := QJs (JStr "") ]} |}.

(** Props with a permanent filter and a permanent sorter. *)
Definition statusOpen : CrudFilter :=
  {| filter_field := "status"; filter_operator := "eq";
     filter_value := JStr "open"; filter_key := None |}.

Definition authorAlice : CrudFilter :=
  {| filter_field := "author"; filter_operator := "eq";
     filter_value := JStr "alice"; filter_key := None |}.

Definition statusClosed : CrudFilter :=
  {| filter_field := "status"; filter_operator := "eq";
     filter_value := JStr "closed"; filter_key := None |}.

Definition byDate : CrudSort := {| sort_field := "date"; sort_order := Desc |}.

Definition permanentInput : RenderInput :=
  {| props :=
       {| pagination := None;
          filtersFromProp :=
            Some {| filters_initial := None;
                    filters_permanent := Some [statusOpen];
                    filters_defaultBehavior := None |};
          sortersFromProp :=
            Some {| sorters_initial := None;
                    sorters_permanent := Some [byDate] |};
          syncWithLocationProp := None |};
     syncWithLocationContext := false;
     params := None |}.

Definition exampleState (c : CursorState) : TableState :=
  {| sorters := []; filters := []; currentPage := 1; pageSize := 5;
     cursorState := c |}.

(** ** The rest of the hook

    The setters exported as they come from [useState], the events that reach
    a mounted hook, and the request handed to [useList]. *)

(** [React.SetStateAction<number>]: a value or an updater. *)
Inductive SetStateAction : Type :=
| SetValue (value : Z)
| SetUpdater (updater : Z -> Z).

Definition applySetState (a : SetStateAction) (old : Z) : Z :=
  match a with
  | SetValue value => value
  | SetUpdater updater => updater old
  end.

Definition withPageSize (n : Z) (st : TableState) : TableState :=
  {| sorters := sorters st; filters := filters st; currentPage := currentPage st;
     pageSize := n; cursorState := cursorState st |}.

Definition setCurrentPage (a : SetStateAction) (st : TableState) : TableState :=
  withCurrentPage (applySetState a (currentPage st)) st.

Definition setPageSize (a : SetStateAction) (st : TableState) : TableState :=
  withPageSize (applySetState a (pageSize st)) st.

(** The same props rendered on other parsed params. *)
Definition withParams (p : option Query) (input : RenderInput) : RenderInput :=
  {| props := props input;
     syncWithLocationContext := syncWithLocationContext input;
     params := p |}.

(** What happens to a mounted hook: a call of the user, a navigation, the
    data of the query arriving, or a render on a location with the parsed
    params [p], on which the effect on the search string runs. *)
Inductive HookEvent : Type :=
| EvCall (c : UserCall)
| EvSetCurrentPage (a : SetStateAction)
| EvSetPageSize (a : SetStateAction)
| EvGoToNextPage
| EvGoToPreviousPage
| EvQueryData (data : option GetListResponse)
| EvLocation (p : option Query).

Definition applyEvent (input : RenderInput) (e : HookEvent) (st : TableState)
    : TableState :=
  match e with
  | EvCall c => applyCall input c st
  | EvSetCurrentPage a => setCurrentPage a st
  | EvSetPageSize a => setPageSize a st
  | EvGoToNextPage => goToNextPage input st
  | EvGoToPreviousPage => goToPreviousPage input st
  | EvQueryData data => responseEffect input data st
  | EvLocation p => resetEffect (withParams p input) st
  end.

Fixpoint runEvents (input : RenderInput) (events : list HookEvent)
    (st : TableState) : TableState :=
  match events with
  | [] => st
  | e :: rest => runEvents input rest (applyEvent input e st)
  end.

(** [goToPreviousPage] called [n] times in a row. *)
Fixpoint repeatPrevious (input : RenderInput) (n : nat) (st : TableState)
    : TableState :=
  match n with
  | O => st
  | S k => repeatPrevious input k (goToPreviousPage input st)
  end.

(** The argument of the last [setSorters] call of a sequence. *)
Fixpoint lastSortersCall (calls : list UserCall) : option (list CrudSort) :=
  match calls with
  | [] => None
  | c :: rest =>
      match lastSortersCall rest with
      | Some s => Some s
      | None =>
          match c with
          | CallSetSorters s => Some s
          | CallSetFilters _ _ => None
          end
      end
  end.

(** A token is absent or passes [if (token)]. *)
Definition absentOrTruthy (v : JsValue) : Prop :=
  v = JUndefined \/ truthy v = true.

Definition cursorWellFormed (c : CursorState) : Prop :=
  absentOrTruthy (current c) /\ Forall absentOrTruthy (history c).

(** The keys of the location the hook reads its state from. *)
Definition stateKeys : list string :=
  ["currentPage"; "pageSize"; "sorters"; "filters"; "after"; "before"].

(** The [mode] of the [filters] and [sorters] props. *)
Inductive FeatureMode : Type := Server | Off.

(** The values of a [meta] object: plain values, and the cursor the hook
    attaches. *)
Inductive MetaValue : Type :=
| MetaPlain (v : JsValue)
| MetaCursor (cursor_current : JsValue) (cursor_direction : CursorDirection).

Abbreviation Meta := (gmap string MetaValue).

(** What the request is shaped from beside the render input: the [mode] of
    [filtersFromProp] and of [sortersFromProp], and the meta that [getMeta]
    returns. *)
Record RequestProps : Type := mkRequestProps {
  filters_mode : option FeatureMode;
  sorters_mode : option FeatureMode;
  combinedMeta : Meta
}.

Definition isServerSideFilteringEnabled (rp : RequestProps) : bool :=
  match filters_mode rp with Some Off => false | _ => true end.

Definition isServerSideSortingEnabled (rp : RequestProps) : bool :=
  match sorters_mode rp with Some Off => false | _ => true end.

Definition cursorMeta (input : RenderInput) (rp : RequestProps) (st : TableState)
    : Meta :=
  if isCursorPaginationEnabled input then
    <["cursor" := MetaCursor (current (cursorState st)) (direction (cursorState st))]>
      (combinedMeta rp)
  else combinedMeta rp.

(** The props of the [useList] call that the hook shapes from its state. *)
Record UseListProps : Type := mkUseListProps {
  list_pagination : Pagination;
  list_filters : option (list CrudFilter);
  list_sorters : option (list CrudSort);
  list_meta : Meta
}.

Definition listRequest (input : RenderInput) (rp : RequestProps) (st : TableState)
    : UseListProps :=
  {| list_pagination :=
       if isCursorPaginationEnabled input then
         {| mode := paginationMode input; pagination_currentPage := None;
            pagination_pageSize := Some (pageSize st) |}
       else
         {| mode := paginationMode input;
            pagination_currentPage := Some (currentPage st);
            pagination_pageSize := Some (pageSize st) |};
     list_filters :=
       if isServerSideFilteringEnabled rp then
         Some (unionFilters (preferredPermanentFilters input) (filters st) [])
       else None;
     list_sorters :=
       if isServerSideSortingEnabled rp then
         Some (unionSorters (preferredPermanentSorters input) (sorters st))
       else None;
     list_meta := cursorMeta input rp st |}.

(** ** The data provider of the cursor-pagination example

    [getList] of the example's rest data provider. The conversion of a
    value to a string by a template literal and the data of the awaited
    [httpClient.get] are parameters. *)

Record Committer : Type := mkCommitter { date : JsValue }.
Record CommitInfo : Type := mkCommitInfo { committer : option Committer }.
Record CommitItem : Type := mkCommitItem { commit : option CommitInfo }.

Section RestDataProvider.

Variable toString : JsValue -> string.
Variable httpGet : string -> list CommitItem.

(** [meta?.cursor?.current]. *)
Definition metaCursorCurrent (meta : option Meta) : JsValue :=
  match meta ≫= (fun m => m !! "cursor") with
  | Some (MetaCursor cursor_current _) => cursor_current
  | _ => JUndefined
  end.

Definition getListUrl (apiUrl resource : string)
    (pagination : option Pagination) (meta : option Meta) : string :=
  let url :=
    apiUrl +:+ "/" +:+ resource +:+ "?per_page="
      +:+ toString (JNum (orNumDefault (pagination ≫= pagination_pageSize) 10)) in
  if truthy (metaCursorCurrent meta) then
    url +:+ "&until=" +:+ toString (metaCursorCurrent meta)
  else url.

(** [lastItem?.commit?.committer?.date] for the last item of [data]. *)
Definition nextCursor (data : list CommitItem) : JsValue :=
  match last data with
  | Some lastItem =>
      match commit lastItem with
      | Some info =>
          match committer info with
          | Some c => date c
          | None => JUndefined
          end
      | None => JUndefined
      end
  | None => JUndefined
  end.

(** The resolved value of [getList]: the data and the rest of the response. *)
Definition getList (apiUrl resource : string)
    (pagination : option Pagination) (meta : option Meta)
    : list CommitItem * GetListResponse :=
  let data := httpGet (getListUrl apiUrl resource pagination meta) in
  (data,
   {| total := Some 200;
      cursor := Some {| cursor_next := nextCursor data;
                        cursor_prev := JUndefined |} |}).

End RestDataProvider.

(** ** Cursor navigation *)

Lemma pop_snoc (h : list JsValue) (x : JsValue) : pop (h ++ [x]) = (x, h).
Proof.
  induction h as [|a h IH]; [reflexivity|].
  cbn [app pop]. destruct (h ++ [x]) as [|b t] eqn:E.
  - destruct h; discriminate E.
  - rewrite IH. reflexivity.
Qed.

Lemma truthy_present (v : JsValue) : truthy v = true -> present v.
Proof. intros H ->. discriminate H. Qed.

(** The tokens that pass [if (token)]: all but [undefined], [null],
    [false], [0] and the empty string. *)
Lemma truthy_spec (v : JsValue) :
  truthy v = true <->
  v <> JUndefined /\ v <> JNull /\ v <> JBool false /\ v <> JNum 0 /\ v <> JStr "".
Proof.
  split.
  - intros H. repeat split; intros ->; discriminate H.
  - intros (Hu & Hn & Hb & Hz & Hs).
    destruct v as [| |b|n|s|l]; cbn; try congruence.
    + destruct b; congruence.
    + destruct (Z.eqb_spec n 0); [congruence|reflexivity].
    + destruct s; congruence.
Qed.

(** C1, refuted as stated: a [prev] token that is present but falsy, here
    the number 0, is passed over; the step takes the client history
    instead, so [current] does not become [prev]. *)
Lemma goToPreviousPage_passes_over_falsy_prev :
  let st :=
    exampleState
      {| current := JStr "c"; direction := After; next := JUndefined;
         prev := JNum 0; history := [JStr "h1"] |} in
  present (prev (cursorState st)) /\
  cursorState (goToPreviousPage cursorInput st) =
    {| current := JStr "h1"; direction := After; next := JUndefined;
       prev := JUndefined; history := [] |} /\
  current (cursorState (goToPreviousPage cursorInput st)) <> prev (cursorState st).
Proof.
  cbn. split; [discriminate|]. split; [reflexivity|discriminate].
Qed.

(** C1, amended: in cursor mode [goToPreviousPage] follows three tiers,
    where a token counts when it is truthy. With a truthy [prev]:
    [current = prev], direction [before], [next] and [prev] cleared,
    [history] as it was. Else with a history [h ++ [x]]: [current = x],
    [history = h], direction [after], [next] and [prev] cleared. Else with
    a truthy [current]: [current] absent, direction [after], [next] and
    [prev] cleared, history empty. Else the state is returned as it is.
    Sorters, filters, page and page size are never touched. *)
Theorem goToPreviousPage_three_tiers (input : RenderInput) (st : TableState) :
  isCursorPaginationEnabled input = true ->
  let c := cursorState st in
  (truthy (prev c) = true ->
   goToPreviousPage input st =
     withCursorState
       {| current := prev c; direction := Before; next := JUndefined;
          prev := JUndefined; history := history c |} st)
  /\ (truthy (prev c) = false ->
      forall h x, history c = h ++ [x] ->
      goToPreviousPage input st =
        withCursorState
          {| current := x; direction := After; next := JUndefined;
             prev := JUndefined; history := h |} st)
  /\ (truthy (prev c) = false -> history c = [] -> truthy (current c) = true ->
      goToPreviousPage input st =
        withCursorState
          {| current := JUndefined; direction := After; next := JUndefined;
             prev := JUndefined; history := [] |} st)
  /\ (truthy (prev c) = false -> history c = [] -> truthy (current c) = false ->
      goToPreviousPage input st = st).
Proof.
  intros Hmode c. unfold goToPreviousPage. rewrite Hmode. cbn [negb].
  fold c. repeat split.
  - intros ->. reflexivity.
  - intros -> h x Hh. rewrite Hh, pop_snoc.
    rewrite length_app, Nat.add_comm. reflexivity.
  - intros -> -> ->. reflexivity.
  - intros -> -> ->. reflexivity.
Qed.

(** C2: cursor mode, no location. After a first response with
    [cursor.next = "abc"] and no [prev], there is a next page and no
    previous one. After [goToNextPage] and a response with
    [cursor.next = "def"] and no [prev], there is a previous page, by the
    client history (the state holds no [prev] token); one
    [goToPreviousPage] then brings [current] back to absent. *)
Theorem cursor_forward_and_back (input : RenderInput) (t1 t2 rt : option Z) :
  isCursorPaginationEnabled input = true ->
  params input = None ->
  let s1 :=
    responseEffect input
      (Some {| total := t1;
               cursor := Some {| cursor_next := JStr "abc";
                                 cursor_prev := JUndefined |} |})
      (mount input) in
  let s2 := goToNextPage input s1 in
  let s3 :=
    responseEffect input
      (Some {| total := t2;
               cursor := Some {| cursor_next := JStr "def";
                                 cursor_prev := JUndefined |} |})
      s2 in
  let s4 := goToPreviousPage input s3 in
  current (cursorState (mount input)) = JUndefined
  /\ hasNextPage input rt s1 = true
  /\ hasPreviousPage input s1 = false
  /\ current (cursorState s2) = JStr "abc"
  /\ hasPreviousPage input s3 = true
  /\ prev (cursorState s3) = JUndefined
  /\ history (cursorState s3) = [JUndefined]
  /\ current (cursorState s4) = JUndefined
  /\ history (cursorState s4) = [].
Proof.
  intros Hmode Hparams.
  assert (Hcur : defaultCursor input = JUndefined).
  { unfold defaultCursor, defaultCursorAndDirection. rewrite Hparams. cbn.
    destruct (syncWithLocation input && isCursorPaginationEnabled input);
      reflexivity. }
  unfold hasNextPage, hasPreviousPage, goToPreviousPage, goToNextPage,
    responseEffect, mount.
  rewrite !Hmode. cbn. rewrite !Hcur. cbn. repeat split; reflexivity.
Qed.

(** C7, refuted as stated: a [next] token that is present with the value 0,
    or with the empty string, gives no next page, and [goToNextPage] does
    not move. *)
Lemma hasNextPage_false_on_falsy_token :
  let zero :=
    exampleState
      {| current := JUndefined; direction := After; next := JNum 0;
         prev := JUndefined; history := [] |} in
  let empty :=
    exampleState
      {| current := JUndefined; direction := After; next := JStr "";
         prev := JUndefined; history := [] |} in
  present (next (cursorState zero))
  /\ hasNextPage cursorInput None zero = false
  /\ goToNextPage cursorInput zero = zero
  /\ present (next (cursorState empty))
  /\ hasNextPage cursorInput None empty = false
  /\ goToNextPage cursorInput empty = empty.
Proof.
  cbn. repeat split; try reflexivity; discriminate.
Qed.

(** C7, amended: in cursor mode the availability of a page depends on the
    truthiness of the tokens and on nothing else of their value:
    [hasNextPage] is the truthiness of [next]; [goToNextPage] moves, to
    [current = next] with the old [current] pushed on the history, exactly
    when [next] is truthy; [hasPreviousPage] holds exactly when [prev] is
    truthy, or the history is not empty, or [current] is truthy. (A token
    is truthy unless it is [undefined], [null], [false], [0] or the empty
    string: [truthy_spec].) *)
Theorem cursor_availability_by_truthiness
    (input : RenderInput) (rt : option Z) (st : TableState) :
  isCursorPaginationEnabled input = true ->
  let c := cursorState st in
  hasNextPage input rt st = truthy (next c)
  /\ (truthy (next c) = true ->
      goToNextPage input st =
        withCursorState
          {| current := next c; direction := After;
             next := JUndefined; prev := JUndefined;
             history := history c ++ [current c] |} st)
  /\ (truthy (next c) = false -> goToNextPage input st = st)
  /\ (goToNextPage input st <> st <-> truthy (next c) = true)
  /\ (hasPreviousPage input st = true <->
      truthy (prev c) = true \/ history c <> [] \/ truthy (current c) = true).
Proof.
  intros Hmode c. unfold hasNextPage, goToNextPage, hasPreviousPage.
  rewrite Hmode. cbn [negb]. fold c.
  split; [reflexivity|].
  split; [intros ->; reflexivity|].
  split; [intros ->; reflexivity|].
  split.
  - destruct (truthy (next c)) eqn:Hn.
    + split; [reflexivity|]. intros _ Heq.
      apply (f_equal (fun s => length (history (cursorState s)))) in Heq.
      cbn in Heq. fold c in Heq. rewrite length_app in Heq. cbn in Heq. lia.
    + split; [intros H; exfalso; apply H; reflexivity|discriminate].
  - rewrite !orb_true_iff.
    assert (Hlen : (0 <? Z.of_nat (length (history c))) = true <-> history c <> []).
    { destruct (history c); cbn; split; try congruence; try discriminate.
      intros _. reflexivity. }
    rewrite Hlen. tauto.
Qed.

(** ** Offset pagination *)

Lemma ceilDiv_isCeiling (a b : Z) : 0 < b -> isCeiling (ceilDiv a b) a b.
Proof.
  intros Hb. unfold isCeiling, ceilDiv.
  pose proof (Z.div_mod (- a) b ltac:(lia)) as Hdm.
  pose proof (Z.mod_pos_bound (- a) b Hb) as Hr.
  split; nia.
Qed.

Lemma isCeiling_unique (q q' a b : Z) :
  0 < b -> isCeiling q a b -> isCeiling q' a b -> q = q'.
Proof. unfold isCeiling. intros Hb [H1 H2] [H3 H4]. nia. Qed.

(** C4: with a page size of at least 1, [pageCount] is the ceiling of
    [total / pageSize], an absent total counting as 0; outside cursor mode
    [hasNextPage] is false if and only if [currentPage >= pageCount]; with
    a total of 47 and a page size of 10 the page count is 5, and on page 5
    there is no next page. *)
Theorem offset_pageCount_hasNextPage
    (input : RenderInput) (rt : option Z) (st : TableState) :
  isCursorPaginationEnabled input = false ->
  0 < pageSize st ->
  isCeiling (pageCount rt st) (nullish rt 0) (pageSize st)
  /\ (rt = None -> pageCount rt st = pageCount (Some 0) st)
  /\ (hasNextPage input rt st = false <-> currentPage st >= pageCount rt st)
  /\ (rt = Some 47 -> pageSize st = 10 ->
      pageCount rt st = 5
      /\ (currentPage st = 5 -> hasNextPage input rt st = false)).
Proof.
  intros Hmode Hsize.
  assert (Hpc : pageCount rt st = ceilDiv (nullish rt 0) (pageSize st)).
  { unfold pageCount. destruct (Z.eqb_spec (pageSize st) 0); [lia|reflexivity]. }
  assert (Hiff : hasNextPage input rt st = false <-> currentPage st >= pageCount rt st).
  { unfold hasNextPage. rewrite Hmode.
    destruct (Z.ltb_spec (currentPage st) (pageCount rt st)); split;
      intros; try lia; try reflexivity; discriminate. }
  split; [rewrite Hpc; apply ceilDiv_isCeiling, Hsize|].
  split; [intros ->; reflexivity|].
  split; [exact Hiff|].
  intros -> Hten.
  assert (H5 : pageCount (Some 47) st = 5).
  { rewrite Hpc, Hten. reflexivity. }
  split; [exact H5|]. intros Hcur. apply Hiff. lia.
Qed.

(** ** Links and the write to the location *)

Lemma cursor_mode_is_enabled (input : RenderInput) :
  isCursorPaginationEnabled input = true -> isPaginationEnabled input = true.
Proof.
  unfold isCursorPaginationEnabled, isPaginationEnabled.
  destruct (paginationMode input) as [[| |]|]; congruence.
Qed.

(** What [createLinkForSyncWithLocation] emits under [pageSize],
    [sorters] and [filters]: the supplied values. *)
Lemma linkQuery_supplied_keys (input : RenderInput) (p : SyncWithLocationParams) :
  linkQuery input p !! "sorters" = Some (QSorters (link_sorters p))
  /\ linkQuery input p !! "filters" = Some (QFilters (link_filters p))
  /\ (isPaginationEnabled input = true ->
      linkQuery input p !! "pageSize" = Some (numOrUndefined (link_pageSize p))).
Proof.
  unfold linkQuery, spread, getCurrentQueryParams.
  repeat split; [| |intros ->];
    rewrite lookup_union_r by (by simplify_map_eq); by simplify_map_eq.
Qed.

(** What it emits under [currentPage]: the value of the location when the
    location has one, the supplied value only otherwise. *)
Lemma linkQuery_currentPage (input : RenderInput) (p : SyncWithLocationParams) :
  linkQuery input p !! "currentPage" =
    match nullish (params input) ∅ !! "currentPage" with
    | Some v => Some v
    | None =>
        if isPaginationEnabled input
        then Some (numOrUndefined (link_currentPage p)) else None
    end.
Proof.
  unfold linkQuery, spread, getCurrentQueryParams.
  rewrite lookup_union. rewrite !lookup_delete_ne by done.
  destruct (nullish (params input) ∅ !! "currentPage") as [v|];
    destruct (isPaginationEnabled input); by simplify_map_eq.
Qed.

(** C5, the code at the failing input: the location holds [currentPage = 3]
    and the link is asked for [currentPage = 5], [pageSize = 10]; the query
    handed to [go] has [currentPage = 3]. *)
Lemma createLink_location_page_overrides_supplied :
  let input := pageThreeInput in
  let p :=
    {| link_currentPage := Some 5; link_pageSize := Some 10;
       link_sorters := []; link_filters := [] |} in
  isPaginationEnabled input = true
  /\ linkQuery input p !! "currentPage" = Some (QJs (JNum 3))
  /\ linkQuery input p !! "pageSize" = Some (QJs (JNum 10)).
Proof.
  intros input p. split; [reflexivity|].
  split.
  - rewrite linkQuery_currentPage. reflexivity.
  - apply linkQuery_supplied_keys. reflexivity.
Qed.

Lemma elem_of_differenceWith_isEqual {A : Type} `{EqDecision A}
    (array values : list A) (x : A) :
  x ∈ differenceWith array values isEqual <-> x ∈ array /\ x ∉ values.
Proof.
  unfold differenceWith. rewrite list_elem_of_filter.
  assert (Hall : forallb (fun y => negb (isEqual x y)) values = true <-> x ∉ values).
  { induction values as [|v values IH]; cbn.
    - split; [intros _; apply not_elem_of_nil|reflexivity].
    - rewrite andb_true_iff, IH, not_elem_of_cons. unfold isEqual.
      case_bool_decide; cbn; intuition congruence. }
  rewrite Hall. tauto.
Qed.

(** C6: the write to the location, when the synchronisation is on. In
    cursor mode with a current cursor, the key of the current direction
    carries the cursor and the other one of [after] / [before] is bound to
    [undefined]; without a current cursor both are bound to [undefined];
    outside cursor mode neither key is written. [currentPage] and
    [pageSize] are written exactly when pagination is enabled and the mode
    is not cursor. [sorters] and [filters] are the entries of the state
    that are in no permanent set. *)
Theorem syncOut_projection (input : RenderInput) (st : TableState) :
  syncWithLocation input = true ->
  exists cfg,
    syncOut input st = Some cfg
    /\ go_type cfg = GoReplace
    /\ (let c := cursorState st in
        let q := query cfg in
        (isCursorPaginationEnabled input = true ->
         (present (current c) ->
          q !! directionKey (direction c) = Some (QJs (current c))
          /\ q !! directionKey (oppositeDirection (direction c))
             = Some (QJs JUndefined))
         /\ (current c = JUndefined ->
             q !! "after" = Some (QJs JUndefined)
             /\ q !! "before" = Some (QJs JUndefined)))
        /\ (isCursorPaginationEnabled input = false ->
            q !! "after" = None /\ q !! "before" = None)
        /\ (isPaginationEnabled input = true ->
            isCursorPaginationEnabled input = false ->
            q !! "currentPage" = Some (QJs (JNum (currentPage st)))
            /\ q !! "pageSize" = Some (QJs (JNum (pageSize st))))
        /\ (isPaginationEnabled input = false
            \/ isCursorPaginationEnabled input = true ->
            q !! "currentPage" = None /\ q !! "pageSize" = None)
        /\ exists ws wf,
            q !! "sorters" = Some (QSorters ws)
            /\ q !! "filters" = Some (QFilters wf)
            /\ (forall x, x ∈ ws <->
                  x ∈ sorters st /\ x ∉ preferredPermanentSorters input)
            /\ (forall x, x ∈ wf <->
                  x ∈ filters st /\ x ∉ preferredPermanentFilters input)).
Proof.
  intros Hsync. unfold syncOut. rewrite Hsync. eexists. split; [reflexivity|].
  split; [reflexivity|]. cbn [query]. unfold spread, cursorParams, present.
  pose proof (cursor_mode_is_enabled input) as Hce.
  destruct (isCursorPaginationEnabled input) eqn:Hc;
    destruct (isPaginationEnabled input) eqn:He;
    try (specialize (Hce eq_refl); discriminate Hce); cbn [andb negb].
  - (* cursor mode *)
    split.
    { intros _. split.
      - intros Hcur. rewrite bool_decide_eq_true_2 by exact Hcur.
        destruct (direction (cursorState st)); cbn; by simplify_map_eq.
      - intros Hcur. rewrite bool_decide_eq_false_2 by (intros H; apply H, Hcur).
        by simplify_map_eq. }
    split; [discriminate|]. split; [discriminate|].
    split.
    { intros _. case_bool_decide;
        [destruct (direction (cursorState st))|]; cbn; by simplify_map_eq. }
    eexists _, _. split; [by simplify_map_eq|]. split; [by simplify_map_eq|].
    split; intros x; apply elem_of_differenceWith_isEqual.
  - (* pagination by page *)
    split; [discriminate|].
    split; [intros _; by simplify_map_eq|].
    split; [intros _ _; by simplify_map_eq|].
    split; [intros [H|H]; discriminate H|].
    eexists _, _. split; [by simplify_map_eq|]. split; [by simplify_map_eq|].
    split; intros x; apply elem_of_differenceWith_isEqual.
  - (* pagination off *)
    split; [discriminate|].
    split; [intros _; by simplify_map_eq|].
    split; [discriminate|].
    split; [intros _; by simplify_map_eq|].
    eexists _, _. split; [by simplify_map_eq|]. split; [by simplify_map_eq|].
    split; intros x; apply elem_of_differenceWith_isEqual.
Qed.

(** ** Filters, sorters and the reset *)

(** C8: [setFilters(F, "replace")] leaves as filters exactly the union of
    the permanent set and [F]: the previous filters take no part in it (the
    result is the same from every previous state), and nothing but the
    filters changes. The same holds with the behavior left out when
    "replace" is the configured default. *)
Theorem setFilters_replace_exact
    (input : RenderInput) (F : list CrudFilter) (st : TableState) :
  let st' := setFiltersFn input (FiltersArray F) (Some Replace) st in
  filters st' = unionFilters (preferredPermanentFilters input) F []
  /\ (forall other : TableState,
        filters (setFiltersFn input (FiltersArray F) (Some Replace) other)
        = filters st')
  /\ (prefferedFilterBehavior input = Replace ->
      setFiltersFn input (FiltersArray F) None st = st')
  /\ sorters st' = sorters st
  /\ currentPage st' = currentPage st
  /\ pageSize st' = pageSize st
  /\ cursorState st' = cursorState st.
Proof.
  cbn. repeat split. intros Hdefault.
  unfold setFiltersFn. cbn. rewrite Hdefault. reflexivity.
Qed.

Lemma resetEffect_other_search (input : RenderInput) (st : TableState) :
  ~ searchIsEmpty input -> resetEffect input st = st.
Proof.
  intros Hne. unfold resetEffect. rewrite bool_decide_eq_false_2; [reflexivity|].
  exact Hne.
Qed.

(** C10, amended: when the search string of the location is exactly empty,
    the effect sets [currentPage], [pageSize], [sorters] and [filters] to
    the defaults computed in that render, from the props and the parsed
    location of that render (the values a mount under the same props and
    location starts with), and leaves the cursor state (current,
    direction, next, prev, history) as it is. *)
Theorem resetEffect_on_empty_search (input : RenderInput) (st : TableState) :
  searchIsEmpty input ->
  let st' := resetEffect input st in
  currentPage st' = defaultCurrentPage input
  /\ pageSize st' = defaultPageSize input
  /\ sorters st' = sorters (mount input)
  /\ filters st' = filters (mount input)
  /\ currentPage st' = currentPage (mount input)
  /\ pageSize st' = pageSize (mount input)
  /\ cursorState st' = cursorState st.
Proof.
  intros Hempty. unfold resetEffect, searchIsEmpty in *.
  rewrite bool_decide_eq_true_2 by exact Hempty.
  cbn. repeat split.
Qed.

(** ** The cursor of a mounted hook *)

Lemma snoc_cases (l : list JsValue) : l = [] \/ exists h x, l = h ++ [x].
Proof. induction l as [|x h _] using rev_ind; [left|right]; eauto. Qed.

Lemma defaultCursor_absentOrTruthy (input : RenderInput) :
  absentOrTruthy (defaultCursor input).
Proof.
  unfold defaultCursor, defaultCursorAndDirection.
  destruct (syncWithLocation input && isCursorPaginationEnabled input);
    [|left; reflexivity].
  destruct (truthy (readJs (params input) "after")) eqn:Ha; [right; exact Ha|].
  destruct (truthy (readJs (params input) "before")) eqn:Hb; [right; exact Hb|].
  left. reflexivity.
Qed.

Lemma applyCall_cursorState (input : RenderInput) (c : UserCall) (st : TableState) :
  cursorState (applyCall input c st) = cursorState st
  /\ currentPage (applyCall input c st) = currentPage st
  /\ pageSize (applyCall input c st) = pageSize st.
Proof.
  destruct c as [[newFilters|setter] behavior|newSorter]; cbn; auto.
  unfold setFiltersFn.
  destruct (nullish behavior (prefferedFilterBehavior input)); cbn; auto.
Qed.

Lemma applyEvent_wellFormed (input : RenderInput) (e : HookEvent) (st : TableState) :
  cursorWellFormed (cursorState st) ->
  cursorWellFormed (cursorState (applyEvent input e st)).
Proof.
  intros [Hcur Hhist]. destruct e as [c|a|a| | |data|p]; cbn [applyEvent].
  - rewrite (proj1 (applyCall_cursorState input c st)). split; assumption.
  - split; assumption.
  - split; assumption.
  - unfold goToNextPage. destruct (negb (isCursorPaginationEnabled input));
      [split; assumption|].
    destruct (truthy (next (cursorState st))) eqn:Hn; [|split; assumption].
    split; cbn; [right; exact Hn|].
    apply Forall_app. split; [exact Hhist|]. constructor; [exact Hcur|constructor].
  - unfold goToPreviousPage. destruct (negb (isCursorPaginationEnabled input));
      [split; assumption|].
    destruct (truthy (prev (cursorState st))) eqn:Hp.
    { split; cbn; [right; exact Hp|exact Hhist]. }
    destruct (snoc_cases (history (cursorState st))) as [Hnil|(h & x & Hsnoc)].
    + rewrite Hnil. cbn.
      destruct (truthy (current (cursorState st)));
        [split; cbn; [left; reflexivity|constructor]|split; assumption].
    + rewrite Hsnoc, pop_snoc, length_app, Nat.add_comm. cbn.
      rewrite Hsnoc in Hhist. apply Forall_app in Hhist.
      destruct Hhist as [Hh Hx]. split; cbn; [|exact Hh].
      inversion Hx; assumption.
  - unfold responseEffect. destruct data as [response|]; [|split; assumption].
    destruct (isCursorPaginationEnabled input); split; assumption.
  - unfold resetEffect. case_bool_decide; split; assumption.
Qed.

(** X1: in every state a mounted hook reaches, whatever the calls, the
    navigations, the responses and the locations, the current cursor and
    every entry of the history are absent or truthy; so the presence test
    of the write to the location and the truthiness test of
    [hasPreviousPage] agree on the current cursor. *)
Theorem reachable_cursor_well_formed
    (input : RenderInput) (events : list HookEvent) :
  let st := runEvents input events (mount input) in
  cursorWellFormed (cursorState st)
  /\ (present (current (cursorState st))
      <-> truthy (current (cursorState st)) = true).
Proof.
  cbn zeta.
  assert (Hwf : cursorWellFormed (cursorState (runEvents input events (mount input)))).
  { assert (H0 : cursorWellFormed (cursorState (mount input))).
    { split; [apply defaultCursor_absentOrTruthy|constructor]. }
    revert H0. generalize (mount input).
    induction events as [|e events IH]; intros st Hst; [exact Hst|].
    cbn [runEvents]. apply IH, applyEvent_wellFormed, Hst. }
  split; [exact Hwf|]. destruct Hwf as [[Hu|Ht] _]; unfold present.
  - rewrite Hu. cbn. split; [congruence|discriminate].
  - split; [intros _; exact Ht|intros _ Hu; rewrite Hu in Ht; discriminate Ht].
Qed.

(** X2: in cursor mode, a forward step on a truthy [next], then a response
    that brings no truthy [prev] (or no response yet), then a backward
    step: the cursor and the history are the ones before the forward
    step, the direction is [after], [next] and [prev] are cleared. *)
Theorem goToNextPage_then_back
    (input : RenderInput) (data : option GetListResponse) (st : TableState) :
  isCursorPaginationEnabled input = true ->
  truthy (next (cursorState st)) = true ->
  (forall response c,
     data = Some response -> cursor response = Some c ->
     truthy (cursor_prev c) = false) ->
  cursorState
    (goToPreviousPage input (responseEffect input data (goToNextPage input st)))
  = {| current := current (cursorState st); direction := After;
       next := JUndefined; prev := JUndefined;
       history := history (cursorState st) |}.
Proof.
  intros Hmode Hnext Hprev.
  unfold goToPreviousPage, responseEffect, goToNextPage.
  rewrite Hmode. cbn [negb]. rewrite Hnext.
  destruct data as [response|]; cbn.
  - destruct (cursor response) as [c|] eqn:Hc; cbn.
    + rewrite (Hprev response c eq_refl Hc).
      rewrite pop_snoc, length_app, Nat.add_comm. reflexivity.
    + rewrite pop_snoc, length_app, Nat.add_comm. reflexivity.
  - rewrite pop_snoc, length_app, Nat.add_comm. reflexivity.
Qed.

(** The number of backward steps before the history and [prev] are used up. *)
Lemma goToPreviousPage_uses_up (input : RenderInput) (st : TableState) :
  isCursorPaginationEnabled input = true ->
  let m (s : TableState) :=
    ((if truthy (prev (cursorState s)) then 1 else 0)
     + length (history (cursorState s)))%nat in
  (m (goToPreviousPage input st) <= pred (m st))%nat.
Proof.
  intros Hmode m. unfold m, goToPreviousPage. rewrite Hmode. cbn [negb].
  destruct (truthy (prev (cursorState st))) eqn:Hp; [cbn; lia|].
  destruct (snoc_cases (history (cursorState st))) as [Hnil|(h & x & Hsnoc)].
  - rewrite Hnil. change (0 <? Z.of_nat (length (@nil JsValue))) with false.
    cbn iota. destruct (truthy (current (cursorState st))).
    + cbn. lia.
    + rewrite Hp, Hnil. cbn. lia.
  - assert (Hpos : (0 <? Z.of_nat (length (h ++ [x]))) = true).
    { apply Z.ltb_lt. rewrite length_app. cbn. lia. }
    rewrite Hsnoc, Hpos, pop_snoc, length_app. cbn. lia.
Qed.

Lemma goToPreviousPage_at_start (input : RenderInput) (st : TableState) :
  isCursorPaginationEnabled input = true ->
  hasPreviousPage input st = false -> goToPreviousPage input st = st.
Proof.
  intros Hmode. unfold hasPreviousPage, goToPreviousPage. rewrite Hmode.
  cbn [negb]. rewrite !orb_false_iff. intros [[-> ->] ->]. reflexivity.
Qed.

Lemma repeatPrevious_at_start (input : RenderInput) (n : nat) (st : TableState) :
  isCursorPaginationEnabled input = true ->
  hasPreviousPage input st = false -> repeatPrevious input n st = st.
Proof.
  intros Hmode Hno. induction n as [|n IH]; [reflexivity|].
  cbn. rewrite (goToPreviousPage_at_start input st Hmode Hno). exact IH.
Qed.

Lemma repeatPrevious_uses_up (input : RenderInput) (k : nat) :
  isCursorPaginationEnabled input = true ->
  forall st : TableState,
    ((if truthy (prev (cursorState st)) then 1 else 0)
     + length (history (cursorState st)) <= k)%nat ->
    hasPreviousPage input (repeatPrevious input (S k) st) = false.
Proof.
  intros Hmode. induction k as [|k IH]; intros st Hm.
  - cbn [repeatPrevious].
    destruct (truthy (prev (cursorState st))) eqn:Hp; [cbn in Hm; lia|].
    destruct (history (cursorState st)) as [|x h] eqn:Hh; [|cbn in Hm; lia].
    destruct (truthy (current (cursorState st))) eqn:Hc.
    + unfold goToPreviousPage, hasPreviousPage.
      rewrite Hmode, Hp, Hh, Hc. reflexivity.
    + rewrite goToPreviousPage_at_start; [|exact Hmode|];
        unfold hasPreviousPage; rewrite Hmode, Hp, Hh, Hc; reflexivity.
  - change (repeatPrevious input (S (S k)) st)
      with (repeatPrevious input (S k) (goToPreviousPage input st)).
    apply IH. pose proof (goToPreviousPage_uses_up input st Hmode) as Hstep.
    cbv beta zeta in Hstep. lia.
Qed.

(** X3: in cursor mode the first page is always reached: after at least
    [length history + 2] backward steps in a row there is no previous page
    left, the history is empty, and a further backward step changes
    nothing. *)
Theorem repeatPrevious_reaches_start
    (input : RenderInput) (n : nat) (st : TableState) :
  isCursorPaginationEnabled input = true ->
  (length (history (cursorState st)) + 2 <= n)%nat ->
  let st' := repeatPrevious input n st in
  hasPreviousPage input st' = false
  /\ history (cursorState st') = []
  /\ truthy (current (cursorState st')) = false
  /\ goToPreviousPage input st' = st'.
Proof.
  intros Hmode Hn st'.
  assert (Hno : hasPreviousPage input st' = false).
  { unfold st'. destruct n as [|k]; [lia|].
    apply repeatPrevious_uses_up; [exact Hmode|].
    destruct (truthy (prev (cursorState st))); lia. }
  split; [exact Hno|].
  pose proof (goToPreviousPage_at_start input st' Hmode Hno) as Hfix.
  unfold hasPreviousPage in Hno. rewrite Hmode, !orb_false_iff in Hno.
  destruct Hno as [[_ Hh] Hc].
  split; [destruct (history (cursorState st')); [reflexivity|discriminate Hh]|].
  split; [exact Hc|exact Hfix].
Qed.

(** ** Navigation by page number *)

(** X4: outside cursor mode, [goToPreviousPage] never goes below page 1
    and undoes [goToNextPage] from every page of at least 1; there is no
    previous page exactly on the pages up to 1; [goToNextPage] adds one
    whether or not there is a next page. *)
Theorem offset_navigation (input : RenderInput) (st : TableState) :
  isCursorPaginationEnabled input = false ->
  1 <= currentPage (goToPreviousPage input st)
  /\ (1 <= currentPage st ->
      goToPreviousPage input (goToNextPage input st) = st)
  /\ (currentPage st <= 1 -> currentPage (goToPreviousPage input st) = 1)
  /\ (hasPreviousPage input st = false <-> currentPage st <= 1)
  /\ (forall rt, currentPage (goToNextPage input st) = currentPage st + 1
                 /\ (hasNextPage input rt st = false ->
                     hasNextPage input rt (goToNextPage input st) = false)).
Proof.
  intros Hmode. unfold goToPreviousPage, goToNextPage, hasPreviousPage, hasNextPage.
  rewrite Hmode. cbn [negb].
  split; [cbn; lia|].
  split.
  { intros Hge. destruct st as [so fi cp ps cs]. cbn in *.
    unfold withCurrentPage. cbn. f_equal. lia. }
  split; [cbn; lia|].
  split.
  { destruct (Z.ltb_spec 1 (currentPage st)); split; intros; try lia;
      try reflexivity; discriminate. }
  intros rt. split; [reflexivity|].
  change (pageCount rt (withCurrentPage (currentPage st + 1) st))
    with (pageCount rt st). cbn [currentPage withCurrentPage].
  rewrite !Z.ltb_ge. lia.
Qed.

(** X5: a navigation never touches the sorters, the filters or the page
    size; in cursor mode it never touches the page number, outside cursor
    mode never the cursor state. *)
Theorem navigation_frame (input : RenderInput) (st : TableState) :
  let n := goToNextPage input st in
  let p := goToPreviousPage input st in
  (sorters n = sorters st /\ filters n = filters st /\ pageSize n = pageSize st)
  /\ (sorters p = sorters st /\ filters p = filters st /\ pageSize p = pageSize st)
  /\ (isCursorPaginationEnabled input = true ->
      currentPage n = currentPage st /\ currentPage p = currentPage st)
  /\ (isCursorPaginationEnabled input = false ->
      cursorState n = cursorState st /\ cursorState p = cursorState st).
Proof.
  cbn zeta. unfold goToNextPage, goToPreviousPage.
  destruct (isCursorPaginationEnabled input); cbn [negb];
    destruct (truthy (next (cursorState st)));
    destruct (truthy (prev (cursorState st)));
    destruct (0 <? Z.of_nat (length (history (cursorState st))));
    destruct (pop (history (cursorState st)));
    destruct (truthy (current (cursorState st)));
    cbn; repeat split; discriminate.
Qed.

(** ** Calls on the filters and on the sorters *)

(** X6: a sequence of [setFilters] and [setSorters] calls never changes the
    page number, the page size or the cursor state; without a call on the
    filters the filters stay, without a call on the sorters the sorters
    stay. *)
Theorem user_calls_frame
    (input : RenderInput) (calls : list UserCall) (st : TableState) :
  let st' := runCalls input calls st in
  currentPage st' = currentPage st
  /\ pageSize st' = pageSize st
  /\ cursorState st' = cursorState st
  /\ (existsb isFiltersCall calls = false -> filters st' = filters st)
  /\ (existsb isSortersCall calls = false -> sorters st' = sorters st).
Proof.
  cbn zeta. revert st. induction calls as [|c calls IH]; intros st.
  - cbn. repeat split.
  - cbn [runCalls existsb]. specialize (IH (applyCall input c st)).
    destruct IH as (Hcp & Hps & Hcs & Hf & Hs).
    destruct (applyCall_cursorState input c st) as (Hcs' & Hcp' & Hps').
    rewrite Hcp, Hps, Hcs, Hcp', Hps', Hcs'.
    split; [reflexivity|]. split; [reflexivity|]. split; [reflexivity|].
    split; rewrite orb_false_iff; intros [Hc Hrest].
    + rewrite (Hf Hrest). destruct c; [discriminate Hc|reflexivity].
    + rewrite (Hs Hrest).
      destruct c as [[newFilters|setter] behavior|newSorter];
        [|reflexivity|discriminate Hc].
      cbn. unfold setFiltersFn.
      destruct (nullish behavior (prefferedFilterBehavior input)); reflexivity.
Qed.

(** X7: the sorters after a sequence of calls are the union of the
    permanent sorters with the argument of the last [setSorters] call
    alone; earlier calls and the sorters before leave no trace. Without a
    [setSorters] call the sorters are the ones before. *)
Theorem sorters_after_calls
    (input : RenderInput) (calls : list UserCall) (st : TableState) :
  sorters (runCalls input calls st)
  = match lastSortersCall calls with
    | Some newSorter => unionSorters (preferredPermanentSorters input) newSorter
    | None => sorters st
    end.
Proof.
  revert st. induction calls as [|c calls IH]; intros st; [reflexivity|].
  cbn [runCalls lastSortersCall]. rewrite IH.
  destruct (lastSortersCall calls) as [s|]; [reflexivity|].
  destruct c as [[newFilters|setter] behavior|newSorter]; [|reflexivity|reflexivity].
  cbn. unfold setFiltersFn.
  destruct (nullish behavior (prefferedFilterBehavior input)); reflexivity.
Qed.

(** [setFilters] with an updater is [setFilters] with the array the
    updater returns on the filters of the state and the behavior
    "replace": the behavior argument and the configured default play no
    part for an updater, and the previous filters enter only through the
    updater. *)
Lemma setFilters_updater_is_replace
    (input : RenderInput) (setter : list CrudFilter -> list CrudFilter)
    (behavior : option SetFilterBehavior) (st : TableState) :
  setFiltersFn input (FiltersSetter setter) behavior st
  = setFiltersFn input (FiltersArray (setter (filters st))) (Some Replace) st.
Proof. reflexivity. Qed.

(** X8: the effect on the search string, which also runs after the first
    render, leaves a freshly mounted state as it is, and running it twice
    on the same render is running it once. *)
Theorem resetEffect_fixes_mount (input : RenderInput) (st : TableState) :
  resetEffect input (mount input) = mount input
  /\ resetEffect input (resetEffect input st) = resetEffect input st.
Proof.
  unfold resetEffect. case_bool_decide; split; reflexivity.
Qed.

(** ** Defaults and the location *)

Lemma orNumDefault_nonzero (a : option Z) (d : Z) :
  d <> 0 -> orNumDefault a d <> 0.
Proof.
  intros Hd. unfold orNumDefault. destruct a as [n|]; [|exact Hd].
  destruct (Z.eqb_spec n 0); assumption.
Qed.

Lemma orNum_truthy (n : Z) (b : option Z) : n <> 0 -> orNum (Some n) b = Some n.
Proof. intros Hn. cbn. destruct (Z.eqb_spec n 0); [contradiction|reflexivity]. Qed.

Lemma orNum_falsy (a b : option Z) : a = None \/ a = Some 0 -> orNum a b = b.
Proof. intros [->| ->]; reflexivity. Qed.

Lemma orNumDefault_truthy (n d : Z) : n <> 0 -> orNumDefault (Some n) d = n.
Proof. intros Hn. cbn. destruct (Z.eqb_spec n 0); [contradiction|reflexivity]. Qed.

Lemma orNumDefault_falsy (a : option Z) (d : Z) :
  a = None \/ a = Some 0 -> orNumDefault a d = d.
Proof. intros [->| ->]; reflexivity. Qed.


(** X10: the default page and the default page size are never 0, whatever
    the location and the props hold; so the page count of a freshly
    mounted hook is always the ceiling of total by page size. *)
Theorem default_page_and_size_nonzero (input : RenderInput) (rt : option Z) :
  defaultCurrentPage input <> 0
  /\ defaultPageSize input <> 0
  /\ pageCount rt (mount input)
     = ceilDiv (nullish rt 0) (defaultPageSize input).
Proof.
  assert (Hsize : defaultPageSize input <> 0).
  { unfold defaultPageSize. destruct (syncWithLocation input);
      apply orNumDefault_nonzero; discriminate. }
  split.
  { unfold defaultCurrentPage. destruct (syncWithLocation input);
      apply orNumDefault_nonzero; discriminate. }
  split; [exact Hsize|].
  unfold pageCount. change (pageSize (mount input)) with (defaultPageSize input).
  destruct (Z.eqb_spec (defaultPageSize input) 0); [contradiction|reflexivity].
Qed.

(** X11: with the synchronisation on, the default page is the first
    non-zero number among the [currentPage] of the parsed params, the one
    of [parseTableParams] and the one of the props, and 1 when there is
    none; a 0 counts as absent at each level. *)
Theorem default_page_precedence (input : RenderInput) (n : Z) :
  syncWithLocation input = true ->
  n <> 0 ->
  let location := readNum (params input) "currentPage" in
  let parsed := parsedCurrentPage (parsedTable input) in
  let preferred := prefferedCurrentPage input in
  let falsy (a : option Z) := a = None \/ a = Some 0 in
  (location = Some n -> defaultCurrentPage input = n)
  /\ (falsy location -> parsed = Some n -> defaultCurrentPage input = n)
  /\ (falsy location -> falsy parsed -> preferred = Some n ->
      defaultCurrentPage input = n)
  /\ (falsy location -> falsy parsed -> falsy preferred ->
      defaultCurrentPage input = 1).
Proof.
  intros Hsync Hn location parsed preferred falsy.
  unfold defaultCurrentPage. rewrite Hsync. fold location parsed preferred.
  repeat split.
  - intros ->. rewrite !orNum_truthy by exact Hn. apply orNumDefault_truthy, Hn.
  - intros Hl ->. rewrite (orNum_falsy location) by exact Hl.
    rewrite orNum_truthy by exact Hn. apply orNumDefault_truthy, Hn.
  - intros Hl Hp ->. rewrite (orNum_falsy location) by exact Hl.
    rewrite (orNum_falsy parsed) by exact Hp. apply orNumDefault_truthy, Hn.
  - intros Hl Hp Hpr. rewrite (orNum_falsy location) by exact Hl.
    rewrite (orNum_falsy parsed) by exact Hp. apply orNumDefault_falsy, Hpr.
Qed.

Ltac in_stateKeys :=
  unfold stateKeys;
  repeat first [apply list_elem_of_here | apply list_elem_of_further].

(** What the write to the location binds under the keys of the state. *)
Lemma syncOut_lookups (input : RenderInput) (st : TableState) (cfg : GoConfig) :
  syncOut input st = Some cfg ->
  let c := cursorState st in
  let q := query cfg in
  let written (d : CursorDirection) :=
    if isPaginationEnabled input && isCursorPaginationEnabled input then
      Some (QJs (if bool_decide (current c <> JUndefined)
                    && bool_decide (direction c = d)
                 then current c else JUndefined))
    else None in
  q !! "currentPage"
    = (if isPaginationEnabled input && negb (isCursorPaginationEnabled input)
       then Some (QJs (JNum (currentPage st))) else None)
  /\ q !! "pageSize"
     = (if isPaginationEnabled input && negb (isCursorPaginationEnabled input)
        then Some (QJs (JNum (pageSize st))) else None)
  /\ q !! "sorters"
     = Some (QSorters
               (differenceWith (sorters st) (preferredPermanentSorters input) isEqual))
  /\ q !! "filters"
     = Some (QFilters
               (differenceWith (filters st) (preferredPermanentFilters input) isEqual))
  /\ q !! "after" = written After
  /\ q !! "before" = written Before.
Proof.
  unfold syncOut. destruct (syncWithLocation input); [|discriminate].
  intros [= <-]. cbn [query]. unfold spread, cursorParams.
  destruct (isPaginationEnabled input); destruct (isCursorPaginationEnabled input);
    cbn [andb negb];
    try case_bool_decide; try destruct (direction (cursorState st));
    cbn; repeat split; by simplify_map_eq.
Qed.

(** X12: the state comes back from the location it was written to. On a
    render whose parsed params agree with the written query on the keys of
    the state: outside cursor mode, with pagination enabled, the default
    page and page size are the page and page size of the state when these
    are not 0; in cursor mode the default cursor is the current cursor of
    the state when this is absent or truthy, with its direction when it is
    truthy; the default sorters and filters are the sorters and filters of
    the state that are in no permanent set. *)
Theorem location_round_trip
    (input : RenderInput) (st : TableState) (cfg : GoConfig) (p' : Query) :
  syncOut input st = Some cfg ->
  (forall k, k ∈ stateKeys -> p' !! k = query cfg !! k) ->
  let input' := withParams (Some p') input in
  let c := cursorState st in
  (isPaginationEnabled input = true ->
   isCursorPaginationEnabled input = false ->
   (currentPage st <> 0 -> defaultCurrentPage input' = currentPage st)
   /\ (pageSize st <> 0 -> defaultPageSize input' = pageSize st))
  /\ (isCursorPaginationEnabled input = true ->
      absentOrTruthy (current c) ->
      defaultCursor input' = current c
      /\ (truthy (current c) = true ->
          defaultCursorDirection input' = direction c))
  /\ defaultSorter input'
     = Some (differenceWith (sorters st) (preferredPermanentSorters input) isEqual)
  /\ defaultFilter input'
     = Some (differenceWith (filters st) (preferredPermanentFilters input) isEqual).
Proof.
  intros Hout Hagree input' c.
  assert (Hsync : syncWithLocation input = true).
  { unfold syncOut in Hout. destruct (syncWithLocation input);
      [reflexivity|discriminate]. }
  destruct (syncOut_lookups input st cfg Hout) as (Hcp & Hps & Hso & Hfi & Haf & Hbe).
  cbv zeta in Haf, Hbe. fold c in Haf, Hbe.
  assert (Hkey : forall k, k ∈ stateKeys ->
            params input' ≫= (fun m => m !! k) = query cfg !! k).
  { intros k Hk. cbn. apply Hagree, Hk. }
  assert (K1 : "currentPage" ∈ stateKeys) by in_stateKeys.
  assert (K2 : "pageSize" ∈ stateKeys) by in_stateKeys.
  assert (K3 : "sorters" ∈ stateKeys) by in_stateKeys.
  assert (K4 : "filters" ∈ stateKeys) by in_stateKeys.
  assert (K5 : "after" ∈ stateKeys) by in_stateKeys.
  assert (K6 : "before" ∈ stateKeys) by in_stateKeys.
  split; [|split; [|split]].
  - intros He Hc. rewrite He, Hc in Hcp, Hps. cbn in Hcp, Hps.
    unfold defaultCurrentPage, defaultPageSize.
    change (syncWithLocation input') with (syncWithLocation input).
    rewrite Hsync. unfold readNum. rewrite (Hkey _ K1), (Hkey _ K2), Hcp, Hps.
    split; intros Hnz; rewrite !orNum_truthy by exact Hnz;
      apply orNumDefault_truthy, Hnz.
  - intros Hc Hwf. pose proof (cursor_mode_is_enabled input Hc) as He.
    rewrite He, Hc in Haf, Hbe. cbn [andb] in Haf, Hbe.
    unfold defaultCursor, defaultCursorDirection, defaultCursorAndDirection.
    change (syncWithLocation input') with (syncWithLocation input).
    change (isCursorPaginationEnabled input') with (isCursorPaginationEnabled input).
    rewrite Hsync, Hc. cbn [andb]. unfold readJs.
    rewrite (Hkey _ K5), (Hkey _ K6), Haf, Hbe.
    destruct Hwf as [Hu|Ht].
    + rewrite bool_decide_eq_false_2 by (intros H; apply H, Hu). cbn.
      rewrite Hu. split; [reflexivity|discriminate].
    + rewrite bool_decide_eq_true_2
        by (intros Hu; rewrite Hu in Ht; discriminate Ht).
      destruct (direction c); repeat case_bool_decide; try congruence;
        cbn; rewrite ?Ht; cbn; split; reflexivity.
  - unfold defaultSorter.
    change (syncWithLocation input') with (syncWithLocation input).
    rewrite Hsync. unfold readSorters. rewrite (Hkey _ K3), Hso. reflexivity.
  - unfold defaultFilter.
    change (syncWithLocation input') with (syncWithLocation input).
    rewrite Hsync. unfold readFilters. rewrite (Hkey _ K4), Hfi. reflexivity.
Qed.

(** X13: a link carries over every parameter of the location except under
    the keys [sorters], [filters], [pageSize], [current] and
    [currentPage]: under any other key the query holds what the location
    holds. A [current] of the location is never carried over, and when
    pagination is off no [pageSize] is emitted. *)
Theorem linkQuery_passthrough
    (input : RenderInput) (p : SyncWithLocationParams) (k : string) :
  k ∉ ["sorters"; "filters"; "pageSize"; "current"; "currentPage"] ->
  linkQuery input p !! k = nullish (params input) ∅ !! k
  /\ linkQuery input p !! "current" = None
  /\ (isPaginationEnabled input = false -> linkQuery input p !! "pageSize" = None).
Proof.
  rewrite !not_elem_of_cons. intros (H1 & H2 & H3 & H4 & H5 & _).
  unfold linkQuery, spread, getCurrentQueryParams.
  split; [|split].
  - rewrite lookup_union, !lookup_delete_ne by congruence.
    destruct (isPaginationEnabled input);
      rewrite !lookup_insert_ne, lookup_empty by congruence;
      destruct (nullish (params input) ∅ !! k); reflexivity.
  - rewrite lookup_union, lookup_delete_eq.
    destruct (isPaginationEnabled input); by simplify_map_eq.
  - intros ->. rewrite lookup_union.
    rewrite (lookup_delete_ne _ "current" "pageSize") by done.
    rewrite lookup_delete_eq. by simplify_map_eq.
Qed.

(** ** Responses and requests *)

(** X14: in cursor mode a response overwrites [next] and [prev] and
    nothing else: a later response leaves no trace of an earlier one, a
    response without a [cursor] clears both tokens (no next page), and
    the current cursor, the direction and the history stay. Without data
    the state stays as it is. *)
Theorem responseEffect_overwrites
    (input : RenderInput) (earlier : option GetListResponse)
    (response : GetListResponse) (rt : option Z) (st : TableState) :
  isCursorPaginationEnabled input = true ->
  let st' := responseEffect input (Some response) st in
  responseEffect input (Some response) (responseEffect input earlier st) = st'
  /\ (cursor response = None ->
      next (cursorState st') = JUndefined
      /\ prev (cursorState st') = JUndefined
      /\ hasNextPage input rt st' = false)
  /\ current (cursorState st') = current (cursorState st)
  /\ direction (cursorState st') = direction (cursorState st)
  /\ history (cursorState st') = history (cursorState st)
  /\ responseEffect input None st = st.
Proof.
  intros Hmode. cbn zeta. unfold responseEffect, hasNextPage. rewrite Hmode.
  split; [destruct earlier; reflexivity|].
  split; [intros ->; cbn; repeat split|].
  cbn. repeat split.
Qed.

(** X15: in cursor mode the token of a response is the token of the next
    request. After a response with a truthy [next] and [goToNextPage], the
    request carries that token with the direction [after]; after a
    response with a truthy [prev] and [goToPreviousPage], it carries that
    token with the direction [before]. The request has no page number, and
    the meta of the caller is passed on under every key but [cursor]. *)
Theorem request_carries_response_token
    (input : RenderInput) (rp : RequestProps) (response : GetListResponse)
    (c : CursorPagination) (st : TableState) :
  isCursorPaginationEnabled input = true ->
  cursor response = Some c ->
  let st' := responseEffect input (Some response) st in
  (truthy (cursor_next c) = true ->
   list_meta (listRequest input rp (goToNextPage input st')) !! "cursor"
   = Some (MetaCursor (cursor_next c) After))
  /\ (truthy (cursor_prev c) = true ->
      list_meta (listRequest input rp (goToPreviousPage input st')) !! "cursor"
      = Some (MetaCursor (cursor_prev c) Before))
  /\ (forall s, pagination_currentPage (list_pagination (listRequest input rp s))
                = None)
  /\ (forall s k, k <> "cursor" ->
                  list_meta (listRequest input rp s) !! k = combinedMeta rp !! k).
Proof.
  intros Hmode Hc. cbn zeta.
  unfold listRequest, cursorMeta, goToNextPage, goToPreviousPage, responseEffect.
  rewrite Hmode, Hc. cbn.
  split; [intros ->; cbn; by simplify_map_eq|].
  split; [intros ->; cbn; by simplify_map_eq|].
  split; [reflexivity|].
  intros s k Hk. by simplify_map_eq.
Qed.

(** X16: with a page size of 0 the page count is 1 whatever the total.
    With a page size of at least 1 and a total that is not negative (an
    absent total counts as 0), the page count is not negative, is 0
    exactly when the total is 0, grows with the total, and is [k] when
    the total is [k] full pages. *)
Theorem pageCount_edges (rt rt' : option Z) (st : TableState) :
  (pageSize st = 0 -> pageCount rt st = 1)
  /\ (0 < pageSize st ->
      (0 <= nullish rt 0 ->
       0 <= pageCount rt st /\ (pageCount rt st = 0 <-> nullish rt 0 = 0))
      /\ (nullish rt 0 <= nullish rt' 0 -> pageCount rt st <= pageCount rt' st)
      /\ (forall k, nullish rt 0 = k * pageSize st -> pageCount rt st = k)).
Proof.
  split.
  { intros Hz. unfold pageCount. rewrite Hz. reflexivity. }
  intros Hsize.
  assert (Hpc : forall t, pageCount t st = ceilDiv (nullish t 0) (pageSize st)).
  { intros t. unfold pageCount.
    destruct (Z.eqb_spec (pageSize st) 0); [lia|reflexivity]. }
  pose proof (ceilDiv_isCeiling (nullish rt 0) (pageSize st) Hsize) as [H1 H2].
  pose proof (ceilDiv_isCeiling (nullish rt' 0) (pageSize st) Hsize) as [H3 H4].
  rewrite !Hpc. repeat split; intros; nia.
Qed.

(** ** The data provider of the example and the hook *)

(** X17: whatever the provider fetched, its response has the total 200
    and no [prev]; once the hook in cursor mode has taken the response,
    there is a next page exactly when the committer date of the last item
    is truthy (so never after an empty page), and a backward step cannot
    take the [prev] tier: [prev] is absent. *)
Theorem provider_response_in_hook
    (toString : JsValue -> string) (httpGet : string -> list CommitItem)
    (input : RenderInput) (apiUrl resource : string)
    (pagination : option Pagination) (meta : option Meta)
    (rt : option Z) (st : TableState) :
  isCursorPaginationEnabled input = true ->
  let result := getList toString httpGet apiUrl resource pagination meta in
  let st' := responseEffect input (Some (snd result)) st in
  total (snd result) = Some 200
  /\ prev (cursorState st') = JUndefined
  /\ hasNextPage input rt st' = truthy (nextCursor (fst result))
  /\ (fst result = [] -> hasNextPage input rt st' = false).
Proof.
  intros Hmode. cbn zeta. unfold responseEffect, hasNextPage, getList.
  rewrite Hmode. cbn. repeat split. intros ->. reflexivity.
Qed.

(** X18: the URL the provider fetches for a request of the hook in cursor
    mode: the resource under the API with [per_page] the page size of
    the state, or 10 when that is 0, followed by [until] with the current
    cursor exactly when the current cursor is truthy. *)
Theorem getListUrl_of_request
    (toString : JsValue -> string)
    (input : RenderInput) (rp : RequestProps) (apiUrl resource : string)
    (st : TableState) :
  isCursorPaginationEnabled input = true ->
  let request := listRequest input rp st in
  let perPage := if pageSize st =? 0 then 10 else pageSize st in
  let base :=
    apiUrl +:+ "/" +:+ resource +:+ "?per_page=" +:+ toString (JNum perPage) in
  getListUrl toString apiUrl resource
    (Some (list_pagination request)) (Some (list_meta request))
  = if truthy (current (cursorState st))
    then base +:+ "&until=" +:+ toString (current (cursorState st))
    else base.
Proof.
  intros Hmode. cbn zeta.
  unfold getListUrl, metaCursorCurrent, listRequest, cursorMeta.
  rewrite Hmode. cbn. rewrite lookup_insert_eq. reflexivity.
Qed.

End UseTable.



(** ** The unions of the specification *)

Section UnionFacts.

Context {A K : Type} `{EqDecision K} (key : A -> K).

Lemma represented_cons (a : A) (l : list A) (x : A) :
  Table.represented key (a :: l) x
  = bool_decide (key a = key x) || Table.represented key l x.
Proof. reflexivity. Qed.

Lemma represented_same_key (l : list A) (x y : A) :
  key x = key y -> Table.represented key l x = Table.represented key l y.
Proof. intros Hk. unfold Table.represented. rewrite Hk. reflexivity. Qed.

Lemma represented_elem_of (l : list A) (x : A) :
  x ∈ l -> Table.represented key l x = true.
Proof.
  induction 1 as [x l|x a l _ IH]; rewrite represented_cons.
  - rewrite bool_decide_eq_true_2 by reflexivity. reflexivity.
  - rewrite IH. apply orb_true_r.
Qed.

Lemma represented_keepLast (l : list A) (x : A) :
  Table.represented key (Table.keepLast key l) x = Table.represented key l x.
Proof.
  induction l as [|a l IH]; [reflexivity|].
  cbn [Table.keepLast]. destruct (Table.represented key l a) eqn:Ha.
  - rewrite IH, represented_cons. case_bool_decide as Hk; [|reflexivity].
    rewrite <- (represented_same_key l a x Hk), Ha. reflexivity.
  - rewrite !represented_cons, IH. reflexivity.
Qed.

Lemma keepLast_idempotent (l : list A) :
  Table.keepLast key (Table.keepLast key l) = Table.keepLast key l.
Proof.
  induction l as [|a l IH]; [reflexivity|].
  cbn [Table.keepLast]. destruct (Table.represented key l a) eqn:Ha; [exact IH|].
  cbn [Table.keepLast]. rewrite represented_keepLast, Ha, IH. reflexivity.
Qed.

Lemma elem_of_keepLast (l : list A) (x : A) :
  x ∈ Table.keepLast key l -> x ∈ l.
Proof.
  induction l as [|a l IH]; [trivial|].
  cbn [Table.keepLast]. destruct (Table.represented key l a).
  - intros H. right. apply IH, H.
  - rewrite !elem_of_cons. intros [->|H]; [left; reflexivity|right; apply IH, H].
Qed.

Lemma filter_none (P : A -> Prop) `{forall x, Decision (P x)} (l : list A) :
  (forall x, x ∈ l -> ~ P x) -> filter P l = [].
Proof.
  induction l as [|a l IH]; intros Hall; [reflexivity|].
  rewrite filter_cons_False by (apply Hall; left).
  apply IH. intros x Hx. apply Hall. right. exact Hx.
Qed.

Lemma filter_all (P : A -> Prop) `{forall x, Decision (P x)} (l : list A) :
  (forall x, x ∈ l -> P x) -> filter P l = l.
Proof.
  induction l as [|a l IH]; intros Hall; [reflexivity|].
  rewrite filter_cons_True by (apply Hall; left).
  f_equal. apply IH. intros x Hx. apply Hall. right. exact Hx.
Qed.

(** Every permanent entry is an entry of the union, as it is. *)
Lemma union_permanent (permanent incoming previous : list A) :
  permanent ⊆ Table.union key permanent incoming previous.
Proof. intros x Hx. unfold Table.union. apply elem_of_app. left. exact Hx. Qed.

(** The permanent entries come first, in their order. *)
Lemma union_permanent_prefix (permanent incoming previous : list A) :
  take (length permanent) (Table.union key permanent incoming previous)
  = permanent.
Proof. unfold Table.union. apply take_app_length. Qed.

(** Every entry of the union comes from one of the three arguments. *)
Lemma union_sources (permanent incoming previous : list A) (x : A) :
  x ∈ Table.union key permanent incoming previous ->
  x ∈ permanent \/ x ∈ incoming \/ x ∈ previous.
Proof.
  unfold Table.union. rewrite !elem_of_app.
  intros [H|[H|H]]; [left; exact H| |];
    apply elem_of_keepLast, list_elem_of_filter in H; tauto.
Qed.

(** Merging the same incoming entries a second time changes nothing. *)
Lemma union_merge_idempotent (permanent incoming previous : list A) :
  Table.union key permanent incoming
    (Table.union key permanent incoming previous)
  = Table.union key permanent incoming previous.
Proof.
  unfold Table.union at 1 3. f_equal. f_equal.
  unfold Table.union. rewrite !filter_app.
  rewrite filter_none; cycle 1.
  { intros x Hx [Hp _]. rewrite (represented_elem_of _ _ Hx) in Hp. discriminate. }
  rewrite filter_none; cycle 1.
  { intros x Hx [_ Hi]. apply elem_of_keepLast, list_elem_of_filter in Hx.
    destruct Hx as [_ Hx]. rewrite (represented_elem_of _ _ Hx) in Hi.
    discriminate. }
  rewrite filter_all; cycle 1.
  { intros x Hx. apply elem_of_keepLast, list_elem_of_filter in Hx. tauto. }
  cbn [app]. apply keepLast_idempotent.
Qed.

End UnionFacts.

(** The entries a two-argument [unionFilters] returns come from the
    permanent set or from the incoming filters. *)
Lemma unionFilters_replace_sources
    (permanent incoming : list CrudFilter) (x : CrudFilter) :
  x ∈ Table.unionFilters permanent incoming [] -> x ∈ permanent \/ x ∈ incoming.
Proof.
  intros H. apply union_sources in H. destruct H as [H|[H|H]]; auto.
  apply elem_of_nil in H. contradiction.
Qed.

(** The scenario of the specification: a permanent [status eq open] and a
    call with [author eq alice] give the two entries in this order. *)
Example setFilters_permanent_then_incoming :
  filters
    (setFiltersFn Table.unionFilters permanentInput
       (FiltersArray [authorAlice]) None
       (mkTableState [] [statusOpen] 1 10
          (mkCursorState JUndefined After JUndefined JUndefined [])))
  = [statusOpen; authorAlice].
Proof. reflexivity. Qed.

(** C9: with the union of the specification, [setFilters(F, "merge")] is
    idempotent: from every state, a second call with the same [F] returns
    the state the first call gave. *)
Theorem setFilters_merge_idempotent
    (input : RenderInput) (F : list CrudFilter) (st : TableState) :
  let merge := setFiltersFn Table.unionFilters input (FiltersArray F) (Some Merge) in
  merge (merge st) = merge st.
Proof.
  cbn. unfold setFiltersAsMerge, withFilters. cbn. f_equal.
  apply union_merge_idempotent.
Qed.

Lemma applyCall_keeps_permanent_filters
    (input : RenderInput) (c : UserCall) (st : TableState) :
  let st' := applyCall Table.unionFilters Table.unionSorters input c st in
  if isFiltersCall c then preferredPermanentFilters input ⊆ filters st'
  else filters st' = filters st.
Proof.
  destruct c as [[newFilters|setter] behavior|newSorter]; cbn;
    [|apply union_permanent|reflexivity].
  unfold setFiltersFn.
  destruct (nullish behavior (prefferedFilterBehavior input));
    apply union_permanent.
Qed.

Lemma applyCall_keeps_permanent_sorters
    (input : RenderInput) (c : UserCall) (st : TableState) :
  let st' := applyCall Table.unionFilters Table.unionSorters input c st in
  if isSortersCall c then preferredPermanentSorters input ⊆ sorters st'
  else sorters st' = sorters st.
Proof.
  destruct c as [[newFilters|setter] behavior|newSorter]; cbn;
    [|reflexivity|apply union_permanent].
  unfold setFiltersFn.
  destruct (nullish behavior (prefferedFilterBehavior input)); reflexivity.
Qed.

(** C3: with the unions of the specification, after every sequence of
    [setFilters] calls (an array with "merge", with "replace" or with the
    default behavior, or an updater) and [setSorters] calls, every entry of
    the permanent filters is an entry of the filters, as it is, and every
    entry of the permanent sorters an entry of the sorters: from a state
    that holds the permanent entries, and from any state at all once the
    sequence has a call on the filters (resp. on the sorters). *)
Theorem permanent_entries_survive_calls
    (input : RenderInput) (calls : list UserCall) (st : TableState) :
  let st' := runCalls Table.unionFilters Table.unionSorters input calls st in
  (existsb isFiltersCall calls = true
   \/ preferredPermanentFilters input ⊆ filters st ->
   preferredPermanentFilters input ⊆ filters st')
  /\ (existsb isSortersCall calls = true
      \/ preferredPermanentSorters input ⊆ sorters st ->
      preferredPermanentSorters input ⊆ sorters st').
Proof.
  revert st. induction calls as [|c calls IH]; intros st; cbn.
  - split; intros [H|H]; try discriminate H; exact H.
  - specialize (IH (applyCall Table.unionFilters Table.unionSorters input c st)).
    cbn in IH. destruct IH as [IHf IHs].
    pose proof (applyCall_keeps_permanent_filters input c st) as Hf.
    pose proof (applyCall_keeps_permanent_sorters input c st) as Hs.
    cbn in Hf, Hs. split.
    + intros H. apply IHf. destruct (isFiltersCall c); [right; exact Hf|].
      rewrite Hf. exact H.
    + intros H. apply IHs. destruct (isSortersCall c); [right; exact Hs|].
      rewrite Hs. exact H.
Qed.

(** C10, refuted as stated: the hook is mounted on a location with
    [currentPage = 3], so that the default computed at mount is page 3;
    when the search string then becomes empty, the page is set to 1, the
    default of the render on the bare location, not to 3. *)
Lemma reset_is_not_to_mount_defaults :
  let atMount :=
    mount Table.exampleInitialFilters Table.exampleInitialSorters Table.noTableParams
      pageThreeInput in
  searchIsEmpty clearedInput
  /\ defaultCurrentPage Table.noTableParams pageThreeInput = 3
  /\ currentPage atMount = 3
  /\ currentPage
       (resetEffect Table.exampleInitialFilters Table.exampleInitialSorters
          Table.noTableParams clearedInput atMount) = 1.
Proof. repeat split. Qed.

(** ** The theorems at concrete inputs *)

Lemma goToPreviousPage_three_tiers_witness :
  let st :=
    exampleState
      {| current := JStr "c"; direction := After; next := JUndefined;
         prev := JStr "p"; history := [JStr "h1"] |} in
  isCursorPaginationEnabled cursorInput = true
  /\ cursorState (goToPreviousPage cursorInput st)
     = {| current := JStr "p"; direction := Before; next := JUndefined;
          prev := JUndefined; history := [JStr "h1"] |}.
Proof.
  intros st. split; [reflexivity|].
  rewrite (proj1 (goToPreviousPage_three_tiers cursorInput st eq_refl) eq_refl).
  reflexivity.
Defined.

Lemma cursor_forward_and_back_witness :
  isCursorPaginationEnabled cursorInput = true
  /\ params cursorInput = None
  /\ current
       (cursorState
          (mount Table.exampleInitialFilters Table.exampleInitialSorters
             Table.noTableParams cursorInput)) = JUndefined.
Proof.
  split; [reflexivity|]. split; [reflexivity|].
  exact (proj1
           (cursor_forward_and_back Table.exampleInitialFilters
              Table.exampleInitialSorters Table.noTableParams cursorInput
              (Some 200) (Some 200) (Some 200) eq_refl eq_refl)).
Defined.

Lemma permanent_entries_survive_calls_witness :
  let calls :=
    [CallSetFilters (FiltersArray [statusClosed; authorAlice]) (Some Replace);
     CallSetSorters [];
     CallSetFilters (FiltersSetter (fun _ => [])) None] in
  let st :=
    mkTableState [] [] 1 10
      (mkCursorState JUndefined After JUndefined JUndefined []) in
  existsb isFiltersCall calls = true
  /\ preferredPermanentFilters permanentInput
     ⊆ filters
         (runCalls Table.unionFilters Table.unionSorters permanentInput calls st).
Proof.
  intros calls st. split; [reflexivity|].
  apply (proj1 (permanent_entries_survive_calls permanentInput calls st)).
  left. reflexivity.
Defined.

Lemma offset_pageCount_hasNextPage_witness :
  let st :=
    mkTableState [] [] 5 10
      (mkCursorState JUndefined After JUndefined JUndefined []) in
  isCursorPaginationEnabled offsetInput = false
  /\ 0 < pageSize st
  /\ pageCount (Some 47) st = 5
  /\ hasNextPage offsetInput (Some 47) st = false.
Proof.
  intros st. split; [reflexivity|]. split; [reflexivity|].
  destruct (offset_pageCount_hasNextPage offsetInput (Some 47) st eq_refl eq_refl)
    as (_ & _ & _ & Hex).
  destruct (Hex eq_refl eq_refl) as [Hcount Hnext].
  split; [exact Hcount|exact (Hnext eq_refl)].
Defined.

Lemma syncOut_projection_witness :
  let st :=
    exampleState
      {| current := JStr "abc"; direction := After; next := JUndefined;
         prev := JUndefined; history := [JUndefined] |} in
  syncWithLocation cursorInput = true
  /\ exists cfg, syncOut cursorInput st = Some cfg /\ go_type cfg = GoReplace.
Proof.
  intros st. split; [reflexivity|].
  destruct (syncOut_projection cursorInput st eq_refl) as (cfg & Hcfg & Htype & _).
  exists cfg. split; [exact Hcfg|exact Htype].
Defined.

Lemma cursor_availability_by_truthiness_witness :
  let st :=
    exampleState
      {| current := JUndefined; direction := After; next := JStr "abc";
         prev := JUndefined; history := [] |} in
  isCursorPaginationEnabled cursorInput = true
  /\ hasNextPage cursorInput None st = true.
Proof.
  intros st. split; [reflexivity|].
  exact (proj1 (cursor_availability_by_truthiness cursorInput None st eq_refl)).
Defined.

Lemma setFilters_replace_exact_witness :
  let st :=
    mkTableState [] [statusOpen; statusClosed] 1 10
      (mkCursorState JUndefined After JUndefined JUndefined []) in
  filters
    (setFiltersFn Table.unionFilters permanentInput
       (FiltersArray [authorAlice]) (Some Replace) st)
  = [statusOpen; authorAlice].
Proof.
  intros st.
  rewrite (proj1 (setFilters_replace_exact Table.unionFilters permanentInput
                    [authorAlice] st)).
  reflexivity.
Defined.

Lemma resetEffect_on_empty_search_witness :
  let st :=
    mkTableState [] [] 3 10
      (mkCursorState (JStr "abc") After (JStr "def") JUndefined [JUndefined]) in
  searchIsEmpty clearedInput
  /\ cursorState
       (resetEffect Table.exampleInitialFilters Table.exampleInitialSorters
          Table.noTableParams clearedInput st)
     = cursorState st.
Proof.
  intros st. split; [reflexivity|].
  apply (resetEffect_on_empty_search Table.exampleInitialFilters
           Table.exampleInitialSorters Table.noTableParams clearedInput st).
  reflexivity.
Defined.

(** ** The further properties at concrete inputs *)

Lemma goToNextPage_then_back_witness :
  let st :=
    exampleState
      {| current := JStr "a"; direction := Before; next := JStr "b";
         prev := JStr "z"; history := [JUndefined] |} in
  let data :=
    Some {| total := Some 200;
            cursor := Some {| cursor_next := JStr "c";
                              cursor_prev := JUndefined |} |} in
  isCursorPaginationEnabled cursorInput = true
  /\ truthy (next (cursorState st)) = true
  /\ cursorState
       (goToPreviousPage cursorInput
          (responseEffect cursorInput data (goToNextPage cursorInput st)))
     = {| current := JStr "a"; direction := After; next := JUndefined;
          prev := JUndefined; history := [JUndefined] |}.
Proof.
  intros st data. split; [reflexivity|]. split; [reflexivity|].
  apply (goToNextPage_then_back cursorInput data st eq_refl eq_refl).
  intros response c Hdata Hcursor. injection Hdata as <-.
  injection Hcursor as <-. reflexivity.
Defined.

Lemma repeatPrevious_reaches_start_witness :
  let st :=
    exampleState
      {| current := JStr "c"; direction := After; next := JUndefined;
         prev := JStr "p"; history := [JUndefined; JStr "a"] |} in
  isCursorPaginationEnabled cursorInput = true
  /\ (length (history (cursorState st)) + 2 <= 4)%nat
  /\ hasPreviousPage cursorInput (repeatPrevious cursorInput 4 st) = false.
Proof.
  intros st. split; [reflexivity|]. split; [cbn; lia|].
  apply (repeatPrevious_reaches_start cursorInput 4 st eq_refl). cbn. lia.
Defined.

Lemma offset_navigation_witness :
  let st :=
    mkTableState [] [] 3 10
      (mkCursorState JUndefined After JUndefined JUndefined []) in
  isCursorPaginationEnabled offsetInput = false
  /\ 1 <= currentPage st
  /\ goToPreviousPage offsetInput (goToNextPage offsetInput st) = st.
Proof.
  intros st. split; [reflexivity|]. split; [cbn; lia|].
  apply (offset_navigation offsetInput st eq_refl). cbn. lia.
Defined.


Lemma default_page_precedence_witness :
  syncWithLocation pageThreeInput = true
  /\ 3 <> 0
  /\ defaultCurrentPage Table.noTableParams pageThreeInput = 3.
Proof.
  split; [reflexivity|]. split; [discriminate|].
  assert (H3 : 3 <> 0) by discriminate.
  exact (proj1 (default_page_precedence Table.noTableParams pageThreeInput 3
                  eq_refl H3) eq_refl).
Defined.

Lemma location_round_trip_witness :
  let st :=
    mkTableState [byDate] [statusOpen] 3 20
      (mkCursorState JUndefined After JUndefined JUndefined []) in
  exists cfg,
    syncOut offsetInput st = Some cfg
    /\ defaultCurrentPage Table.noTableParams
         (withParams (Some (query cfg)) offsetInput) = 3
    /\ defaultPageSize Table.noTableParams
         (withParams (Some (query cfg)) offsetInput) = 20.
Proof.
  intros st. eexists. split; [reflexivity|].
  destruct (proj1 (location_round_trip Table.noTableParams offsetInput st _ _
                     eq_refl (fun k _ => eq_refl)) eq_refl eq_refl)
    as [Hpage Hsize].
  split; [apply Hpage|apply Hsize]; discriminate.
Defined.

Lemma linkQuery_passthrough_witness :
  let input :=
    {| props := offsetProps; syncWithLocationContext := false;
       params := Some {[ "tab" := QJs (JStr "open") ]} |} in
  let p :=
    {| link_currentPage := Some 2; link_pageSize := Some 10;
       link_sorters := []; link_filters := [] |} in
  ("tab" ∉ ["sorters"; "filters"; "pageSize"; "current"; "currentPage"])
  /\ linkQuery input p !! "tab" = Some (QJs (JStr "open")).
Proof.
  intros input p.
  assert (Hk : "tab" ∉ ["sorters"; "filters"; "pageSize"; "current"; "currentPage"]).
  { rewrite !not_elem_of_cons. repeat split; try discriminate.
    apply not_elem_of_nil. }
  split; [exact Hk|].
  rewrite (proj1 (linkQuery_passthrough input p "tab" Hk)). reflexivity.
Defined.

Lemma responseEffect_overwrites_witness :
  let st :=
    exampleState
      {| current := JStr "a"; direction := After; next := JStr "b";
         prev := JStr "z"; history := [JUndefined] |} in
  let response := {| total := None; cursor := None |} in
  isCursorPaginationEnabled cursorInput = true
  /\ hasNextPage cursorInput None
       (responseEffect cursorInput (Some response) st) = false.
Proof.
  intros st response. split; [reflexivity|].
  destruct (responseEffect_overwrites cursorInput None response None st eq_refl)
    as (_ & Hclear & _).
  apply Hclear. reflexivity.
Defined.

Lemma request_carries_response_token_witness :
  let st :=
    exampleState
      {| current := JUndefined; direction := After; next := JUndefined;
         prev := JUndefined; history := [] |} in
  let c := {| cursor_next := JStr "abc"; cursor_prev := JUndefined |} in
  let response := {| total := Some 200; cursor := Some c |} in
  let rp :=
    {| filters_mode := None; sorters_mode := None; combinedMeta := ∅ |} in
  isCursorPaginationEnabled cursorInput = true
  /\ cursor response = Some c
  /\ truthy (cursor_next c) = true
  /\ list_meta
       (listRequest Table.unionFilters Table.unionSorters cursorInput rp
          (goToNextPage cursorInput
             (responseEffect cursorInput (Some response) st))) !! "cursor"
     = Some (MetaCursor (JStr "abc") After).
Proof.
  intros st c response rp. split; [reflexivity|]. split; [reflexivity|].
  split; [reflexivity|].
  apply (request_carries_response_token Table.unionFilters Table.unionSorters
           cursorInput rp response c st eq_refl eq_refl).
  reflexivity.
Defined.

Lemma pageCount_edges_witness :
  let st :=
    mkTableState [] [] 1 10
      (mkCursorState JUndefined After JUndefined JUndefined []) in
  0 < pageSize st
  /\ nullish (Some 30) 0 = 3 * pageSize st
  /\ pageCount (Some 30) st = 3.
Proof.
  intros st. split; [reflexivity|]. split; [reflexivity|].
  apply (proj2 (pageCount_edges (Some 30) None st)); reflexivity.
Defined.

Lemma provider_response_in_hook_witness :
  let toString := fun v : JsValue => match v with JStr s => s | _ => "" end in
  let httpGet := fun _ : string => @nil CommitItem in
  let st :=
    exampleState
      {| current := JStr "a"; direction := After; next := JStr "b";
         prev := JUndefined; history := [JUndefined] |} in
  isCursorPaginationEnabled cursorInput = true
  /\ hasNextPage cursorInput None
       (responseEffect cursorInput
          (Some (snd (getList toString httpGet "https://api.github.com"
                        "commits" None None))) st) = false.
Proof.
  intros toString httpGet st. split; [reflexivity|].
  apply (provider_response_in_hook toString httpGet cursorInput
           "https://api.github.com" "commits" None None None st eq_refl).
  reflexivity.
Defined.

Lemma getListUrl_of_request_witness :
  let toString :=
    fun v : JsValue =>
      match v with JStr s => s | JNum 5 => "5" | _ => "" end in
  let rp :=
    {| filters_mode := None; sorters_mode := None; combinedMeta := ∅ |} in
  let st :=
    exampleState
      {| current := JStr "d1"; direction := After; next := JUndefined;
         prev := JUndefined; history := [JUndefined] |} in
  let request :=
    listRequest Table.unionFilters Table.unionSorters cursorInput rp st in
  isCursorPaginationEnabled cursorInput = true
  /\ getListUrl toString "https://api.github.com" "commits"
       (Some (list_pagination request)) (Some (list_meta request))
     = "https://api.github.com/commits?per_page=5&until=d1".
Proof.
  intros toString rp st request. split; [reflexivity|].
  unfold request.
  rewrite (getListUrl_of_request Table.unionFilters Table.unionSorters toString
             cursorInput rp "https://api.github.com" "commits" st eq_refl).
  reflexivity.
Defined.

Lemma navigation_frame_witness :
  let st :=
    mkTableState [byDate] [statusOpen] 3 10
      (mkCursorState (JStr "a") After (JStr "b") JUndefined [JUndefined]) in
  isCursorPaginationEnabled cursorInput = true
  /\ currentPage (goToNextPage cursorInput st) = 3
  /\ currentPage (goToPreviousPage cursorInput st) = 3.
Proof.
  intros st. split; [reflexivity|].
  destruct (navigation_frame cursorInput st) as (_ & _ & Hcursor & _).
  exact (Hcursor eq_refl).
Defined.

Lemma user_calls_frame_witness :
  let calls :=
    [CallSetSorters [byDate]; CallSetSorters []] in
  let st :=
    mkTableState [] [authorAlice] 3 10
      (mkCursorState (JStr "a") After (JStr "b") JUndefined [JUndefined]) in
  existsb isFiltersCall calls = false
  /\ filters (runCalls Table.unionFilters Table.unionSorters permanentInput calls st)
     = [authorAlice].
Proof.
  intros calls st. split; [reflexivity|].
  destruct (user_calls_frame Table.unionFilters Table.unionSorters
              permanentInput calls st) as (_ & _ & _ & Hfilters & _).
  exact (Hfilters eq_refl).
Defined.
